(** * Discounting engine of [src/descuento.py]

    A shallow embedding of the two functions of the module,
    [interpolar_factor_descuento] (log-linear interpolation on a discount
    curve) and [calcular_valor_presente] (present value of a cash-flow
    schedule under the CURVA and YIELD methods), and the properties the
    specification states about them.

    Modelling choices, all of them visible in the definitions below:

    - a [datetime.date] (and a midnight [pd.Timestamp]) is its proleptic
      Gregorian ordinal, an integer; [(a - b).days] is the difference of
      the ordinals and the comparisons of dates are those of [Z].  The
      range of [pd.Timestamp] is not part of the model: the dates are
      taken inside it ([representable] below names it), so the conversion
      and the subtraction of timestamps never fail;
    - the arguments have the types the signatures annotate: the curve is
      a frame with a date column and a float column, a flow is a pair,
      [yield_anual], [spread_credito] and the amounts are Python floats
      and [frecuencia] is an [int];
    - the floating-point operations are the fields of the class
      [Flotante]: the embedding is written once, for every carrier, and
      the structural properties are proved without assuming any law of
      the arithmetic.  The instance [Flotante_R] interprets them in the
      real numbers; it is the exact-arithmetic reading used by the
      properties that speak about the values themselves;
    - Python exceptions are the [Raise] outcomes of the error monad
      [res]: the [ValueError]s of the validation, the [IndexError] of
      [.iloc] on an empty frame, the [TypeError] of comparing a float
      with a date, the [ZeroDivisionError] and [OverflowError] of [/]
      and [**] on Python floats.  The numpy operations ([np.log],
      [np.exp] and the arithmetic on [np.float64]) never raise and are
      total. *)

From Stdlib Require Import ZArith List String Bool Lia Reals Lra Sorted.
From Stdlib Require Import Permutation.
Import ListNotations.

Set Implicit Arguments.

(** ** Exceptions and the error monad *)

Inductive exn : Type :=
| ValueError (msg : string)
| IndexError
| TypeError
| ZeroDivisionError
| OverflowError
| NoReal.  (* [**] left the floats: Python yields a complex number *)

Inductive res (A : Type) : Type :=
| Ok (a : A)
| Raise (e : exn).

Arguments Ok {A} a.
Arguments Raise {A} e.

Definition bind {A B : Type} (c : res A) (k : A -> res B) : res B :=
  match c with
  | Ok a => k a
  | Raise e => Raise e
  end.

Declare Scope res_scope.
Delimit Scope res_scope with res.
Notation "x <- c ;; k" := (bind c (fun x => k))
  (at level 61, c at next level, right associativity) : res_scope.
Local Open Scope res_scope.

(** A [for] loop whose body threads the accumulator and may raise. *)
Fixpoint for_each {A S : Type} (cuerpo : A -> S -> res S) (l : list A) (s : S)
  : res S :=
  match l with
  | [] => Ok s
  | x :: resto => s' <- cuerpo x s ;; for_each cuerpo resto s'
  end.

(** ** Dates *)

Definition date : Type := Z.

(** The ordinal of a calendar date, as [datetime.date.toordinal] computes
    it (1 is 0001-01-01).  It is only used to write concrete dates. *)
Module Calendario.

Definition is_leap (year : Z) : bool :=
  (year mod 4 =? 0)%Z && (negb (year mod 100 =? 0)%Z || (year mod 400 =? 0)%Z).

Definition days_before_year (year : Z) : Z :=
  let y := (year - 1)%Z in
  (y * 365 + y / 4 - y / 100 + y / 400)%Z.

Definition DAYS_BEFORE_MONTH : list Z :=
  [-1; 0; 31; 59; 90; 120; 151; 181; 212; 243; 273; 304; 334]%Z.

Definition days_before_month (year month : Z) : Z :=
  (nth (Z.to_nat month) DAYS_BEFORE_MONTH 0
   + (if (2 <? month)%Z && is_leap year then 1 else 0))%Z.

Definition ymd2ord (year month day : Z) : date :=
  (days_before_year year + days_before_month year month + day)%Z.

End Calendario.

(** ** Floating-point interface *)

Class Flotante (F : Type) : Type := {
  of_int : Z -> F;                 (* int -> float, and the literals *)
  fadd : F -> F -> F;
  fsub : F -> F -> F;
  fmul : F -> F -> F;
  fdiv : F -> F -> F;              (* quotient by a non-zero divisor; numpy [/] *)
  fneg : F -> F;
  np_log : F -> F;
  np_exp : F -> F;
  es_cero : F -> bool;             (* [x == 0.0] *)
  fle : F -> F -> bool;            (* [x <= y] *)
  float_pow : F -> F -> res F      (* [x ** y] on Python floats *)
}.

Section Modelo.

Context {F : Type} `{Flotante F}.

(** [x / y] on Python floats (the builtin type, not [np.float64]) raises
    on a zero divisor. *)
Definition py_truediv (x y : F) : res F :=
  if es_cero y then Raise ZeroDivisionError else Ok (fdiv x y).

(** [dias / 365.0]: the divisor is a non-zero literal. *)
Definition entre_365 (dias : Z) : F := fdiv (of_int dias) (of_int 365).

(** *** The curve: a frame with the columns ['Date'] and ['Discount'] *)

Record fila : Type := Fila { Date : date; Discount : F }.

Definition DataFrame : Type := list fila.

Definition empty (df : DataFrame) : bool :=
  match df with [] => true | _ :: _ => false end.

(** [.iloc[0]] and [.iloc[-1]] *)
Definition iloc_0 (df : DataFrame) : res fila :=
  match df with
  | [] => Raise IndexError
  | p :: _ => Ok p
  end.

Fixpoint iloc_m1 (df : DataFrame) : res fila :=
  match df with
  | [] => Raise IndexError
  | [p] => Ok p
  | _ :: resto => iloc_m1 resto
  end.

(** *** [interpolar_factor_descuento] *)

Definition coincidencia (fecha_flujo_dt : date) (df_curva : DataFrame) :=
  filter (fun p => Date p =? fecha_flujo_dt)%Z df_curva.

Definition puntos_anteriores (fecha_flujo_dt : date) (df_curva : DataFrame) :=
  filter (fun p => Date p <? fecha_flujo_dt)%Z df_curva.

Definition puntos_posteriores (fecha_flujo_dt : date) (df_curva : DataFrame) :=
  filter (fun p => fecha_flujo_dt <? Date p)%Z df_curva.

(** The log-linear formula of the last lines of the function. *)
Definition log_lineal (punto_1 punto_2 : fila)
    (fecha_flujo_dt fecha_valoracion : date) : F :=
  let t1 := Date punto_1 in
  let t2 := Date punto_2 in
  let df1 := Discount punto_1 in
  let df2 := Discount punto_2 in
  let T1 := entre_365 (t1 - fecha_valoracion) in
  let T2 := entre_365 (t2 - fecha_valoracion) in
  let T_flujo := entre_365 (fecha_flujo_dt - fecha_valoracion) in
  let log_df1 := np_log df1 in
  let log_df2 := np_log df2 in
  let log_df_flujo :=
    fadd log_df1
         (fdiv (fmul (fsub log_df2 log_df1) (fsub T_flujo T1)) (fsub T2 T1)) in
  np_exp log_df_flujo.

Definition interpolar_factor_descuento
    (fecha_flujo : date) (df_curva : DataFrame) (fecha_valoracion : date)
  : res F :=
  let fecha_flujo_dt := fecha_flujo in
  if negb (empty (coincidencia fecha_flujo_dt df_curva)) then
    p <- iloc_0 (coincidencia fecha_flujo_dt df_curva) ;; Ok (Discount p)
  else if empty (puntos_anteriores fecha_flujo_dt df_curva) then
    p <- iloc_0 df_curva ;; Ok (Discount p)
  else if empty (puntos_posteriores fecha_flujo_dt df_curva) then
    p <- iloc_m1 df_curva ;; Ok (Discount p)
  else
    punto_1 <- iloc_m1 (puntos_anteriores fecha_flujo_dt df_curva) ;;
    punto_2 <- iloc_0 (puntos_posteriores fecha_flujo_dt df_curva) ;;
    Ok (log_lineal punto_1 punto_2 fecha_flujo_dt fecha_valoracion).

(** *** [calcular_valor_presente] *)

Inductive MetodoDescuento : Type := CURVA | YIELD.

(** The argument [metodo] is not checked by Python: any value may be
    passed, and one that is no member of the enumeration reaches the
    final [else]. *)
Inductive valor_metodo : Type :=
| Miembro (m : MetodoDescuento)
| Otro (texto : string).

(** First component of a flow: a date or a time in years.  The flag
    [flujos_como_fechas] says how the function reads it. *)
Inductive instante : Type :=
| Fecha (d : date)
| Tiempo (t : F).

Definition flujo : Type := (instante * F)%type.

Definition cuerpo_curva (df_curva : DataFrame) (spread_credito : F)
    (fecha_valoracion : date) (fl : flujo) (valor_presente : F) : res F :=
  let '(i, monto_flujo) := fl in
  match i with
  | Tiempo _ => Raise TypeError
  | Fecha fecha_flujo =>
      if (fecha_flujo <? fecha_valoracion)%Z then Ok valor_presente
      else
        df_curva_flujo <-
          interpolar_factor_descuento fecha_flujo df_curva fecha_valoracion ;;
        let plazo_anos := entre_365 (fecha_flujo - fecha_valoracion) in
        let factor_descuento_ajustado :=
          fmul df_curva_flujo (np_exp (fmul (fneg spread_credito) plazo_anos)) in
        Ok (fadd valor_presente (fmul monto_flujo factor_descuento_ajustado))
  end.

(** The two lines shared by both YIELD loops. *)
Definition descontar_yield (yield_anual : F) (frecuencia : Z)
    (tiempo_anos monto_flujo valor_presente : F) : res F :=
  q <- py_truediv yield_anual (of_int frecuencia) ;;
  factor_descuento <-
    float_pow (fadd (of_int 1) q) (fmul tiempo_anos (of_int frecuencia)) ;;
  c <- py_truediv monto_flujo factor_descuento ;;
  Ok (fadd valor_presente c).

Definition cuerpo_yield_fechas (yield_anual : F) (frecuencia : Z)
    (fecha_valoracion : date) (fl : flujo) (valor_presente : F) : res F :=
  let '(i, monto_flujo) := fl in
  match i with
  | Tiempo _ => Raise TypeError
  | Fecha fecha_flujo =>
      if (fecha_flujo <? fecha_valoracion)%Z then Ok valor_presente
      else
        let tiempo_anos := entre_365 (fecha_flujo - fecha_valoracion) in
        descontar_yield yield_anual frecuencia tiempo_anos monto_flujo
                        valor_presente
  end.

Definition cuerpo_yield_tiempos (yield_anual : F) (frecuencia : Z)
    (fl : flujo) (valor_presente : F) : res F :=
  let '(i, monto_flujo) := fl in
  match i with
  | Fecha _ => Raise TypeError
  | Tiempo tiempo_anos =>
      if fle tiempo_anos (of_int 0) then Ok valor_presente
      else
        descontar_yield yield_anual frecuencia tiempo_anos monto_flujo
                        valor_presente
  end.

Definition calcular_valor_presente
    (flujos_caja : list flujo)
    (fecha_valoracion : option date)
    (metodo : valor_metodo)
    (df_curva : option DataFrame)
    (spread_credito : F)
    (yield_anual : option F)
    (frecuencia : Z)
    (flujos_como_fechas : bool) : res F :=
  match metodo with
  | Miembro CURVA =>
      match df_curva with
      | None => Raise (ValueError "Se requiere 'df_curva' para el método CURVA")
      | Some curva =>
          if negb flujos_como_fechas then
            Raise (ValueError "El método CURVA requiere flujos_como_fechas=True")
          else
            match fecha_valoracion with
            | None =>
                Raise (ValueError
                         "Se requiere 'fecha_valoracion' para el método CURVA")
            | Some fv =>
                for_each (cuerpo_curva curva spread_credito fv)
                         flujos_caja (of_int 0)
            end
      end
  | Miembro YIELD =>
      match yield_anual with
      | None => Raise (ValueError "Se requiere 'yield_anual' para el método YIELD")
      | Some y =>
          if flujos_como_fechas then
            match fecha_valoracion with
            | None =>
                Raise (ValueError
                  "Se requiere 'fecha_valoracion' cuando flujos_como_fechas=True")
            | Some fv =>
                for_each (cuerpo_yield_fechas y frecuencia fv)
                         flujos_caja (of_int 0)
            end
          else
            for_each (cuerpo_yield_tiempos y frecuencia)
                     flujos_caja (of_int 0)
      end
  | Otro texto =>
      Raise (ValueError ("Método de descuento no reconocido: " ++ texto))
  end.

End Modelo.

(** ** The specification's reading of the present value

    Definitions that follow the words of the specification: keep the
    flows that are not past, compute one term per flow, add the terms in
    the order of the schedule starting from [0.0]. *)

Section Especificacion.

Context {F : Type} `{Flotante F}.

Definition suma (l : list F) : F := fold_left fadd l (of_int 0).

(** Date-shaped and time-shaped schedules. *)
Definition flujos_fechas (l : list (date * F)) : list (@flujo F) :=
  map (fun '(d, a) => (Fecha d, a)) l.

Definition flujos_tiempos (l : list (F * F)) : list (@flujo F) :=
  map (fun '(t, a) => (Tiempo t, a)) l.

(** Flows dated on or after the valuation date. *)
Definition no_pasados (fecha_valoracion : date) (l : list (date * F)) :=
  filter (fun '(d, _) => (fecha_valoracion <=? d)%Z) l.

(** Flows whose time does not satisfy [t <= 0]. *)
Definition no_vencidos (l : list (F * F)) :=
  filter (fun '(t, _) => negb (fle t (of_int 0))) l.

(** [amount * (DF_curve * exp (- spread * T))] *)
Definition termino_curva (spread : F) (T DF_curve amount : F) : F :=
  fmul amount (fmul DF_curve (np_exp (fmul (fneg spread) T))).

(** [amount / (1 + yield / freq) ^ (T * freq)], which may raise. *)
Definition termino_yield (yield_rate : F) (freq : Z) (T amount : F) : res F :=
  q <- py_truediv yield_rate (of_int freq) ;;
  DF <- float_pow (fadd (of_int 1) q) (fmul T (of_int freq)) ;;
  py_truediv amount DF.

(** The terms in order, up to the first one that raises. *)
Fixpoint secuencia {A : Type} (l : list (res A)) : res (list A) :=
  match l with
  | [] => Ok []
  | c :: resto => x <- c ;; xs <- secuencia resto ;; Ok (x :: xs)
  end.

Definition suma_de_terminos (l : list (res F)) : res F :=
  cs <- secuencia l ;; Ok (suma cs).

Definition vp_yield_fechas (yield_rate : F) (freq : Z) (valuation_date : date)
    (l : list (date * F)) : res F :=
  suma_de_terminos
    (map (fun '(d, a) =>
            termino_yield yield_rate freq (entre_365 (d - valuation_date)) a)
         (no_pasados valuation_date l)).

Definition vp_yield_tiempos (yield_rate : F) (freq : Z) (l : list (F * F))
  : res F :=
  suma_de_terminos
    (map (fun '(t, a) => termino_yield yield_rate freq t a) (no_vencidos l)).

End Especificacion.

(** ** Exact arithmetic: the real numbers

    [ln] is the real logarithm on positive arguments, which is where
    [np.log] is finite; the properties below that go through [np_log]
    assume positive discount factors, the invariant of a curve. *)

Definition R_es_cero (x : R) : bool :=
  if Req_dec_T x 0 then true else false.

Definition R_le (x y : R) : bool :=
  if Rle_dec x y then true else false.

(** [x ** y]: a positive base gives [exp (y * ln x)]; [0.0 ** y] is 0, 1 or
    a [ZeroDivisionError] as [y] is positive, zero or negative; a negative
    base has a real power for an integral exponent only. *)
Definition R_pow (x y : R) : res R :=
  if Rlt_dec 0 x then Ok (Rpower x y)
  else if Req_dec_T x 0 then
    if Rlt_dec 0 y then Ok 0%R
    else if Req_dec_T y 0 then Ok 1%R
    else Raise ZeroDivisionError
  else if Req_dec_T (frac_part y) 0 then Ok (powerRZ x (Int_part y))
  else Raise NoReal.

#[export] Instance Flotante_R : Flotante R := {|
  of_int := IZR;
  fadd := Rplus;
  fsub := Rminus;
  fmul := Rmult;
  fdiv := Rdiv;
  fneg := Ropp;
  np_log := ln;
  np_exp := exp;
  es_cero := R_es_cero;
  fle := R_le;
  float_pow := R_pow
|}.

(** A curve in the sense of the data model: dates strictly ascending. *)
Definition ascendente {F : Type} (df_curva : @DataFrame F) : Prop :=
  StronglySorted Z.lt (map (@Date F) df_curva).

(** Strictly decreasing factors along the curve. *)
Definition decreciente (df_curva : @DataFrame R) : Prop :=
  StronglySorted (fun a b => (b < a)%R) (map (@Discount R) df_curva).

Definition positiva (df_curva : @DataFrame R) : Prop :=
  Forall (fun p => (0 < Discount p)%R) df_curva.

(** The dates that [pd.Timestamp] holds at nanosecond resolution, the
    resolution of a [datetime64[ns]] column: 1677-09-22 to 2262-04-11. *)
Definition Timestamp_min_date : date := Calendario.ymd2ord 1677 9 22.
Definition Timestamp_max_date : date := Calendario.ymd2ord 2262 4 11.

Definition representable (d : date) : Prop :=
  (Timestamp_min_date <= d <= Timestamp_max_date)%Z.

(** ** The scenarios of the specification *)

Definition fecha_2024_01_01 : date := Calendario.ymd2ord 2024 1 1.
Definition fecha_2024_07_02 : date := Calendario.ymd2ord 2024 7 2.
Definition fecha_2025_01_01 : date := Calendario.ymd2ord 2025 1 1.

(** Curve [(2024-01-01, 1.0); (2025-01-01, 0.95)]. *)
Definition curva_ejemplo : @DataFrame R :=
  [ Fila fecha_2024_01_01 1%R; Fila fecha_2025_01_01 0.95%R ].

(** A three-point curve, for the properties that need an interior row. *)
Definition curva_tres : @DataFrame R :=
  [ Fila 10%Z 1%R; Fila 20%Z 0.9%R; Fila 40%Z 0.8%R ].

(** Single cash flow [(2025-01-01, 1000)]. *)
Definition flujos_escenario : list (@flujo R) :=
  [ (Fecha fecha_2025_01_01, 1000%R) ].

(** A flow with its amount multiplied by [k]. *)
Definition por_factor (k : R) (fl : @flujo R) : @flujo R :=
  let '(i, monto_flujo) := fl in (i, (k * monto_flujo)%R).

(** * Properties *)

Unset Implicit Arguments.

(** ** Tools: the error monad, loops and filters *)

Lemma bind_Ok_inv {A B : Type} (c : res A) (k : A -> res B) (b : B) :
  bind c k = Ok b -> exists a, c = Ok a /\ k a = Ok b.
Proof.
  destruct c as [a|e]; simpl; intros E; [now exists a | discriminate].
Qed.

Lemma for_each_app {A S : Type} (cuerpo : A -> S -> res S) (l1 l2 : list A) (s : S) :
  for_each cuerpo (l1 ++ l2) s = bind (for_each cuerpo l1 s) (for_each cuerpo l2).
Proof.
  revert s; induction l1 as [|x l1 IH]; intros s; simpl; [reflexivity|].
  destruct (cuerpo x s) as [s'|e]; simpl; [apply IH | reflexivity].
Qed.

Lemma filter_todos {A : Type} (f : A -> bool) (l : list A) :
  Forall (fun x => f x = true) l -> filter f l = l.
Proof.
  induction 1 as [|x l Hx _ IH]; simpl; [reflexivity|].
  now rewrite Hx, IH.
Qed.

Lemma filter_ninguno {A : Type} (f : A -> bool) (l : list A) :
  Forall (fun x => f x = false) l -> filter f l = [].
Proof.
  induction 1 as [|x l Hx _ IH]; simpl; [reflexivity|].
  now rewrite Hx.
Qed.

Lemma StronglySorted_app_inv {A : Type} (R : A -> A -> Prop) (l1 l2 : list A) :
  StronglySorted R (l1 ++ l2) ->
  StronglySorted R l1 /\ StronglySorted R l2 /\
  (forall x y, In x l1 -> In y l2 -> R x y).
Proof.
  induction l1 as [|a l1 IH]; simpl; intros Hs.
  - repeat split; [constructor | assumption | intros x y []].
  - apply StronglySorted_inv in Hs as [Hs Ha].
    destruct (IH Hs) as (H1 & H2 & H12).
    rewrite Forall_forall in Ha.
    repeat split; try assumption.
    + constructor; [assumption|].
      rewrite Forall_forall; intros x Hx; apply Ha, in_or_app; now left.
    + intros x y [<-|Hx] Hy; [apply Ha, in_or_app; now right | now apply H12].
Qed.

Section Curva.

Context {F : Type} `{Flotante F}.

Implicit Types (df_curva curva : @DataFrame F) (p : @fila F) (q v : date).

Lemma empty_true curva : empty curva = true <-> curva = [].
Proof. destruct curva; simpl; split; congruence. Qed.

Lemma empty_false curva : empty curva = false <-> curva <> [].
Proof. destruct curva; simpl; split; congruence. Qed.

Lemma iloc_m1_app curva p : iloc_m1 (curva ++ [p]) = Ok p.
Proof.
  induction curva as [|a l IH]; simpl; [reflexivity|].
  destruct (l ++ [p]) eqn:E; [now destruct l | exact IH].
Qed.

Lemma iloc_0_In curva p : iloc_0 curva = Ok p -> In p curva.
Proof. destruct curva; simpl; [discriminate | intros [= ->]; now left]. Qed.

Lemma iloc_m1_In curva p : iloc_m1 curva = Ok p -> In p curva.
Proof.
  induction curva as [|a l IH]; simpl; [discriminate|].
  destruct l as [|b l]; [intros [= ->]; now left | intros E; right; now apply IH].
Qed.

Lemma iloc_0_total curva : curva <> [] -> exists p, iloc_0 curva = Ok p.
Proof. destruct curva as [|p l]; [congruence | now exists p]. Qed.

Lemma iloc_m1_total curva : curva <> [] -> exists p, iloc_m1 curva = Ok p.
Proof.
  induction curva as [|a l IH]; [congruence|]; intros _.
  destruct l as [|b l]; [now exists a|].
  destruct IH as [p Hp]; [discriminate|]. now exists p.
Qed.

Lemma en_anteriores q curva p :
  In p (puntos_anteriores q curva) <-> In p curva /\ (Date p < q)%Z.
Proof. unfold puntos_anteriores; rewrite filter_In, Z.ltb_lt; tauto. Qed.

Lemma en_posteriores q curva p :
  In p (puntos_posteriores q curva) <-> In p curva /\ (q < Date p)%Z.
Proof. unfold puntos_posteriores; rewrite filter_In, Z.ltb_lt; tauto. Qed.

Lemma en_coincidencia q curva p :
  In p (coincidencia q curva) <-> In p curva /\ Date p = q.
Proof. unfold coincidencia; rewrite filter_In, Z.eqb_eq; tauto. Qed.

(** On a non-empty curve the function returns a factor for every date. *)
Lemma interpolar_total q curva v :
  curva <> [] -> exists df, interpolar_factor_descuento q curva v = Ok df.
Proof.
  intros Hne; unfold interpolar_factor_descuento; cbv zeta.
  destruct (empty (coincidencia q curva)) eqn:Ec; simpl.
  - destruct (empty (puntos_anteriores q curva)) eqn:Ea.
    + destruct (iloc_0_total _ Hne) as [p ->]; simpl; eauto.
    + destruct (empty (puntos_posteriores q curva)) eqn:Ep.
      * destruct (iloc_m1_total _ Hne) as [p ->]; simpl; eauto.
      * apply empty_false in Ea, Ep.
        destruct (iloc_m1_total _ Ea) as [p1 ->], (iloc_0_total _ Ep) as [p2 ->].
        simpl; eauto.
  - apply empty_false in Ec.
    destruct (iloc_0_total _ Ec) as [p ->]; simpl; eauto.
Qed.

(** The three frames of the function around a query that falls between
    two consecutive rows of an ascending curve. *)
Lemma marcos_entre_pivotes (l1 l2 : DataFrame) p1 p2 q :
  ascendente (l1 ++ p1 :: p2 :: l2) ->
  (Date p1 < q < Date p2)%Z ->
  coincidencia q (l1 ++ p1 :: p2 :: l2) = [] /\
  puntos_anteriores q (l1 ++ p1 :: p2 :: l2) = l1 ++ [p1] /\
  puntos_posteriores q (l1 ++ p1 :: p2 :: l2) = p2 :: l2.
Proof.
  unfold ascendente; intros Hs [Hlo Hhi].
  rewrite map_app in Hs; simpl in Hs.
  apply StronglySorted_app_inv in Hs as (_ & Hs & H1).
  apply StronglySorted_inv in Hs as [Hs _].
  apply StronglySorted_inv in Hs as [_ H2].
  assert (B1 : Forall (fun p => (Date p < q)%Z) l1).
  { rewrite Forall_forall; intros p Hp.
    specialize (H1 (Date p) (Date p1) (in_map _ _ _ Hp) (or_introl eq_refl)). lia. }
  assert (B2 : Forall (fun p => (q < Date p)%Z) l2).
  { rewrite Forall_forall in H2 |- *; intros p Hp.
    specialize (H2 (Date p) (in_map _ _ _ Hp)). lia. }
  unfold coincidencia, puntos_anteriores, puntos_posteriores.
  rewrite !filter_app; simpl.
  replace (Date p1 =? q)%Z with false by (symmetry; apply Z.eqb_neq; lia).
  replace (Date p2 =? q)%Z with false by (symmetry; apply Z.eqb_neq; lia).
  replace (Date p1 <? q)%Z with true by (symmetry; apply Z.ltb_lt; lia).
  replace (Date p2 <? q)%Z with false by (symmetry; apply Z.ltb_ge; lia).
  replace (q <? Date p1)%Z with false by (symmetry; apply Z.ltb_ge; lia).
  replace (q <? Date p2)%Z with true by (symmetry; apply Z.ltb_lt; lia).
  repeat split.
  - rewrite 2 filter_ninguno; [reflexivity| |].
    + eapply Forall_impl; [|exact B2]; simpl; intros p Hp; apply Z.eqb_neq; lia.
    + eapply Forall_impl; [|exact B1]; simpl; intros p Hp; apply Z.eqb_neq; lia.
  - rewrite filter_todos, filter_ninguno; [reflexivity| |].
    + eapply Forall_impl; [|exact B2]; simpl; intros p Hp; apply Z.ltb_ge; lia.
    + eapply Forall_impl; [|exact B1]; simpl; intros p Hp; apply Z.ltb_lt; lia.
  - rewrite filter_ninguno, filter_todos; [reflexivity| |].
    + eapply Forall_impl; [|exact B2]; simpl; intros p Hp; apply Z.ltb_lt; lia.
    + eapply Forall_impl; [|exact B1]; simpl; intros p Hp; apply Z.ltb_ge; lia.
Qed.

(** Between two consecutive rows the function applies the log-linear
    formula to exactly those rows. *)
Lemma interpolar_entre_pivotes (l1 l2 : DataFrame) p1 p2 q v :
  ascendente (l1 ++ p1 :: p2 :: l2) ->
  (Date p1 < q < Date p2)%Z ->
  interpolar_factor_descuento q (l1 ++ p1 :: p2 :: l2) v
  = Ok (log_lineal p1 p2 q v).
Proof.
  intros Hs Hq.
  destruct (marcos_entre_pivotes l1 l2 p1 p2 q Hs Hq) as (Ec & Ea & Ep).
  unfold interpolar_factor_descuento; cbv zeta.
  rewrite Ec, Ea, Ep; simpl.
  destruct (l1 ++ [p1]) eqn:E; [now destruct l1|]; simpl empty; cbv iota.
  rewrite <- E, iloc_m1_app; reflexivity.
Qed.

(** A query strictly between the first and the last date that matches no
    date splits the curve at two consecutive rows. *)
Lemma pivotes_consecutivos curva q p0 pn :
  iloc_0 curva = Ok p0 -> iloc_m1 curva = Ok pn ->
  (Date p0 < q < Date pn)%Z ->
  ~ In q (map (@Date F) curva) ->
  exists l1 p1 p2 l2,
    curva = l1 ++ p1 :: p2 :: l2 /\ (Date p1 < q < Date p2)%Z.
Proof.
  revert p0; induction curva as [|a l IH]; intros p0; simpl; [discriminate|].
  intros [= <-] Hn Hq Hni.
  destruct l as [|b l].
  - injection Hn as <-; lia.
  - destruct (Z_lt_ge_dec q (Date b)) as [Hlt|Hge].
    + exists [], a, b, l; split; [reflexivity | lia].
    + assert (Hb : (Date b < q)%Z).
      { assert (Date b <> q) by (intros E; apply Hni; simpl; tauto). lia. }
      destruct (IH b eq_refl Hn) as (l1 & p1 & p2 & l2 & E & Hp).
      * lia.
      * intros Hin; apply Hni; now right.
      * exists (a :: l1), p1, p2, l2; split; [simpl; now rewrite E | exact Hp].
Qed.

End Curva.

(** ** The interpolator: which branch, which rows, which formula *)

Section Interpolador.

Context {F : Type} `{Flotante F}.

Implicit Types (curva : @DataFrame F) (p : @fila F) (q v : date).

Lemma orden_entre_pivotes (l1 l2 : DataFrame) p1 p2 :
  ascendente (l1 ++ p1 :: p2 :: l2) ->
  (forall p, In p l1 -> (Date p < Date p1)%Z) /\
  (forall p, In p l2 -> (Date p2 < Date p)%Z) /\
  (Date p1 < Date p2)%Z.
Proof.
  unfold ascendente; intros Hs.
  rewrite map_app in Hs; simpl in Hs.
  apply StronglySorted_app_inv in Hs as (_ & Hs & H1).
  apply StronglySorted_inv in Hs as [Hs H12].
  apply StronglySorted_inv in Hs as [_ H2].
  rewrite Forall_forall in H2.
  repeat split.
  - intros p Hp; apply H1; [now apply in_map | now left].
  - intros p Hp; apply H2; now apply in_map.
  - now inversion H12.
Qed.

Lemma fechas_inyectivas curva p p' :
  NoDup (map (@Date F) curva) ->
  In p curva -> In p' curva -> Date p = Date p' -> p = p'.
Proof.
  induction curva as [|a l IH]; simpl; [tauto|].
  intros Hnd Hp Hp' E; inversion Hnd as [|x xs Hni Hnd']; subst.
  destruct Hp as [<-|Hp], Hp' as [<-|Hp']; trivial.
  - exfalso; apply Hni; rewrite E; now apply in_map.
  - exfalso; apply Hni; rewrite <- E; now apply in_map.
  - now apply IH.
Qed.

(** C1. On a curve sorted strictly ascending by date, for a query [q]
    that equals no curve date and lies strictly between the first and
    the last one, [interpolar_factor_descuento] selects as [t1] the
    latest curve date strictly before [q] and as [t2] the earliest one
    strictly after, turns [t1], [t2] and [q] into year fractions
    [(date - fecha_valoracion).days / 365.0] and returns
    [exp (ln df1 + (ln df2 - ln df1) * (T - T1) / (T2 - T1))].  The
    statement holds for every arithmetic, so the positivity of the
    factors is not needed, and a curve whose first date is before its
    last one has two points. *)
Theorem interpolacion_interior_log_lineal curva v q p0 pn :
  ascendente curva ->
  iloc_0 curva = Ok p0 ->
  iloc_m1 curva = Ok pn ->
  (Date p0 < q < Date pn)%Z ->
  ~ In q (map (@Date F) curva) ->
  exists p1 p2,
    In p1 curva /\ In p2 curva /\
    (Date p1 < q < Date p2)%Z /\
    (forall p, In p curva -> (Date p < q)%Z -> (Date p <= Date p1)%Z) /\
    (forall p, In p curva -> (q < Date p)%Z -> (Date p2 <= Date p)%Z) /\
    let T1 := fdiv (of_int (Date p1 - v)) (of_int 365) in
    let T2 := fdiv (of_int (Date p2 - v)) (of_int 365) in
    let T := fdiv (of_int (q - v)) (of_int 365) in
    let ln_df1 := np_log (Discount p1) in
    let ln_df2 := np_log (Discount p2) in
    interpolar_factor_descuento q curva v
    = Ok (np_exp (fadd ln_df1
                       (fdiv (fmul (fsub ln_df2 ln_df1) (fsub T T1))
                             (fsub T2 T1)))).
Proof.
  intros Hs H0 Hn Hq Hni.
  destruct (pivotes_consecutivos curva q p0 pn H0 Hn Hq Hni)
    as (l1 & p1 & p2 & l2 & -> & Hp).
  destruct (orden_entre_pivotes l1 l2 p1 p2 Hs) as (B1 & B2 & B12).
  exists p1, p2.
  split; [apply in_or_app; right; now left|].
  split; [apply in_or_app; right; right; now left|].
  split; [exact Hp|].
  split; [|split].
  - intros p Hin Hlt. apply in_app_or in Hin as [Hin|[<-|[<-|Hin]]].
    + specialize (B1 p Hin); lia.
    + lia.
    + lia.
    + specialize (B2 p Hin); lia.
  - intros p Hin Hlt. apply in_app_or in Hin as [Hin|[<-|[<-|Hin]]].
    + specialize (B1 p Hin); lia.
    + lia.
    + lia.
    + specialize (B2 p Hin); lia.
  - cbv zeta. now rewrite (interpolar_entre_pivotes l1 l2 p1 p2 q v Hs Hp).
Qed.

(** A query dated as some row returns the stored factor of a row with
    that date (the first one in the frame), whatever the curve. *)
Lemma coincidencia_devuelve_fila curva q v :
  In q (map (@Date F) curva) ->
  exists p, In p curva /\ Date p = q /\
            interpolar_factor_descuento q curva v = Ok (Discount p).
Proof.
  intros Hin; apply in_map_iff in Hin as (p0 & E0 & Hp0).
  assert (Hc : In p0 (coincidencia q curva))
    by (apply en_coincidencia; now split).
  unfold interpolar_factor_descuento; cbv zeta.
  destruct (coincidencia q curva) as [|p l] eqn:E; [destruct Hc|].
  assert (Hp : In p (coincidencia q curva)) by (rewrite E; now left).
  apply en_coincidencia in Hp as [Hp Ed].
  exists p; repeat split; trivial.
Qed.

(** C2. Exact match and flat extrapolation.  On a curve, whose dates
    are all different, the query at the date of a row returns the stored
    factor of that row, untouched (with repeated dates it would be the
    factor of the first row with that date); a query before every curve
    date returns the factor of the first row, a query after every curve
    date the factor of the last row; a one-row curve returns the factor
    of its row for every query.  None of the cases uses the arithmetic,
    so positivity of the factors plays no role. *)
Theorem coincidencia_exacta_y_extrapolacion_plana v :
  (forall curva p,
      NoDup (map (@Date F) curva) -> In p curva ->
      interpolar_factor_descuento (Date p) curva v = Ok (Discount p)) /\
  (forall p0 resto q,
      Forall (fun p => (q < Date p)%Z) (p0 :: resto) ->
      interpolar_factor_descuento q (p0 :: resto) v = Ok (Discount p0)) /\
  (forall resto pn q,
      Forall (fun p => (Date p < q)%Z) (resto ++ [pn]) ->
      interpolar_factor_descuento q (resto ++ [pn]) v = Ok (Discount pn)) /\
  (forall p q, interpolar_factor_descuento q [p] v = Ok (Discount p)).
Proof.
  repeat split.
  - intros curva p Hnd Hin.
    destruct (coincidencia_devuelve_fila curva (Date p) v)
      as (p' & Hp' & Ed & ->); [now apply in_map|].
    now rewrite (fechas_inyectivas curva p' p Hnd Hp' Hin Ed).
  - intros p0 resto q Hall.
    unfold interpolar_factor_descuento; cbv zeta.
    unfold coincidencia, puntos_anteriores.
    rewrite 2 filter_ninguno; [reflexivity| |].
    + eapply Forall_impl; [|exact Hall]; simpl; intros p Hp; apply Z.ltb_ge; lia.
    + eapply Forall_impl; [|exact Hall]; simpl; intros p Hp; apply Z.eqb_neq; lia.
  - intros resto pn q Hall.
    unfold interpolar_factor_descuento; cbv zeta.
    unfold coincidencia, puntos_anteriores, puntos_posteriores.
    rewrite filter_ninguno, filter_todos, filter_ninguno.
    + destruct (resto ++ [pn]) eqn:E; [now destruct resto|].
      simpl empty; cbv iota; simpl negb; cbv iota.
      rewrite <- E, iloc_m1_app; reflexivity.
    + eapply Forall_impl; [|exact Hall]; simpl; intros p Hp; apply Z.ltb_ge; lia.
    + eapply Forall_impl; [|exact Hall]; simpl; intros p Hp; apply Z.ltb_lt; lia.
    + eapply Forall_impl; [|exact Hall]; simpl; intros p Hp; apply Z.eqb_neq; lia.
  - intros p q.
    unfold interpolar_factor_descuento, coincidencia, puntos_anteriores,
      puntos_posteriores; cbv zeta; simpl.
    destruct (Date p =? q)%Z; simpl; [reflexivity|].
    destruct (Date p <? q)%Z eqn:Ea; simpl; [|reflexivity].
    destruct (q <? Date p)%Z eqn:Ep; simpl; [|reflexivity].
    apply Z.ltb_lt in Ea, Ep; lia.
Qed.

End Interpolador.

(** ** The valuation loops *)

Section Valoracion.

Context {F : Type} `{Flotante F}.

Implicit Types (curva : @DataFrame F) (v : date) (vp : F).

(** *** Skipped flows leave the accumulator as it is *)

Lemma cuerpo_curva_pasado curva s v d a vp :
  (d < v)%Z -> cuerpo_curva curva s v (Fecha d, a) vp = Ok vp.
Proof. intros Hd; simpl. apply Z.ltb_lt in Hd; now rewrite Hd. Qed.

Lemma cuerpo_yield_fechas_pasado y f v d a vp :
  (d < v)%Z -> cuerpo_yield_fechas y f v (Fecha d, a) vp = Ok vp.
Proof. intros Hd; simpl. apply Z.ltb_lt in Hd; now rewrite Hd. Qed.

Lemma cuerpo_yield_tiempos_vencido y f t a vp :
  fle t (of_int 0) = true -> cuerpo_yield_tiempos y f (Tiempo t, a) vp = Ok vp.
Proof. intros Ht; simpl; now rewrite Ht. Qed.

(** A flow on which the body returns the accumulator unchanged can be
    removed from the schedule. *)
Lemma for_each_omite {A : Type} (cuerpo : A -> F -> res F) (l1 l2 : list A) x vp :
  (forall s, cuerpo x s = Ok s) ->
  for_each cuerpo (l1 ++ x :: l2) vp = for_each cuerpo (l1 ++ l2) vp.
Proof.
  intros Hx; rewrite !for_each_app.
  destruct (for_each cuerpo l1 vp) as [s|e]; simpl; [now rewrite Hx | reflexivity].
Qed.

(** *** CURVA *)

Lemma bucle_curva_suma curva s v (DF : date -> F) (l : list (date * F)) vp :
  (forall d, interpolar_factor_descuento d curva v = Ok (DF d)) ->
  for_each (cuerpo_curva curva s v) (flujos_fechas l) vp
  = Ok (fold_left fadd
          (map (fun '(d, a) => termino_curva s (entre_365 (d - v)) (DF d) a)
               (no_pasados v l))
          vp).
Proof.
  intros HDF; revert vp; induction l as [|[d a] l IH]; intros vp;
    [reflexivity|].
  cbn [flujos_fechas map for_each cuerpo_curva no_pasados filter].
  destruct (Z.ltb_spec d v) as [Hlt|Hge].
  - replace (v <=? d)%Z with false by (symmetry; apply Z.leb_gt; lia).
    simpl; apply IH.
  - replace (v <=? d)%Z with true by (symmetry; apply Z.leb_le; lia).
    rewrite HDF; simpl; apply IH.
Qed.

(** C3. Method CURVA with a curve, date-shaped flows and a valuation
    date: the function returns the sum, in the order of the schedule and
    from [0.0], of [amount * (DF_curve * exp (- spread_credito * T))]
    over the flows dated on or after the valuation date, where
    [T = (date - fecha_valoracion).days / 365.0] and [DF_curve] is what
    [interpolar_factor_descuento] returns for that date; flows dated
    strictly before the valuation date are left out.  The curve has a
    row, which is what makes the interpolator return. *)
Theorem valor_presente_metodo_curva curva s y f v (l : list (date * F)) :
  curva <> [] ->
  exists DF_curve : date -> F,
    (forall d, interpolar_factor_descuento d curva v = Ok (DF_curve d)) /\
    calcular_valor_presente (flujos_fechas l) (Some v) (Miembro CURVA)
                            (Some curva) s y f true
    = Ok (suma (map (fun '(d, a) =>
                       let T := fdiv (of_int (d - v)) (of_int 365) in
                       fmul a (fmul (DF_curve d) (np_exp (fmul (fneg s) T))))
                    (filter (fun '(d, _) => (v <=? d)%Z) l))).
Proof.
  intros Hne.
  exists (fun d => match interpolar_factor_descuento d curva v with
                   | Ok df => df
                   | Raise _ => of_int 0
                   end).
  assert (HDF : forall d,
             interpolar_factor_descuento d curva v
             = Ok match interpolar_factor_descuento d curva v with
                  | Ok df => df
                  | Raise _ => of_int 0
                  end).
  { intros d; destruct (interpolar_total d curva v Hne) as [df ->]; reflexivity. }
  split; [exact HDF|].
  simpl. now rewrite (bucle_curva_suma curva s v _ l (of_int 0) HDF).
Qed.

(** *** YIELD *)

Lemma descontar_yield_termino y f T a vp :
  descontar_yield y f T a vp
  = bind (termino_yield y f T a) (fun c => Ok (fadd vp c)).
Proof.
  unfold descontar_yield, termino_yield.
  destruct (py_truediv y (of_int f)) as [q|e]; simpl; [|reflexivity].
  destruct (float_pow _ _) as [DF|e]; simpl; reflexivity.
Qed.

Lemma bucle_yield_fechas_suma y f v (l : list (date * F)) vp :
  for_each (cuerpo_yield_fechas y f v) (flujos_fechas l) vp
  = bind (secuencia
            (map (fun '(d, a) => termino_yield y f (entre_365 (d - v)) a)
                 (no_pasados v l)))
         (fun cs => Ok (fold_left fadd cs vp)).
Proof.
  revert vp; induction l as [|[d a] l IH]; intros vp; [reflexivity|].
  cbn [flujos_fechas map for_each cuerpo_yield_fechas no_pasados filter].
  destruct (Z.ltb_spec d v) as [Hlt|Hge].
  - replace (v <=? d)%Z with false by (symmetry; apply Z.leb_gt; lia).
    simpl; apply IH.
  - replace (v <=? d)%Z with true by (symmetry; apply Z.leb_le; lia).
    rewrite descontar_yield_termino; cbn [map secuencia].
    destruct (termino_yield y f (entre_365 (d - v)) a) as [c|e]; simpl;
      [|reflexivity].
    fold (flujos_fechas l); rewrite IH; fold (no_pasados v l).
    destruct (secuencia _) as [cs|e]; reflexivity.
Qed.

Lemma bucle_yield_tiempos_suma y f (l : list (F * F)) vp :
  for_each (cuerpo_yield_tiempos y f) (flujos_tiempos l) vp
  = bind (secuencia
            (map (fun '(t, a) => termino_yield y f t a) (no_vencidos l)))
         (fun cs => Ok (fold_left fadd cs vp)).
Proof.
  revert vp; induction l as [|[t a] l IH]; intros vp; [reflexivity|].
  cbn [flujos_tiempos map for_each cuerpo_yield_tiempos no_vencidos filter].
  destruct (fle t (of_int 0)); simpl negb; cbv iota.
  - simpl; apply IH.
  - rewrite descontar_yield_termino; cbn [map secuencia].
    destruct (termino_yield y f t a) as [c|e]; simpl; [|reflexivity].
    fold (flujos_tiempos l); rewrite IH; fold (no_vencidos l).
    destruct (secuencia _) as [cs|e]; reflexivity.
Qed.

(** For every arithmetic, the YIELD loops compute what the
    specification describes: the terms of the flows that are kept,
    added in order from [0.0], up to the first term that raises. *)
Lemma valor_presente_yield_refina y f v (curva : option (@DataFrame F)) s :
  (forall l : list (date * F),
      calcular_valor_presente (flujos_fechas l) (Some v) (Miembro YIELD)
                              curva s (Some y) f true
      = vp_yield_fechas y f v l) /\
  (forall (l : list (F * F)) fv,
      calcular_valor_presente (flujos_tiempos l) fv (Miembro YIELD)
                              curva s (Some y) f false
      = vp_yield_tiempos y f l).
Proof.
  split; intros l; [|intros fv]; simpl.
  - apply bucle_yield_fechas_suma.
  - apply bucle_yield_tiempos_suma.
Qed.

(** *** Validation *)

(** C7. Whenever a parameter the method requires is missing (method
    CURVA without a curve, or with flows that are not date-shaped, or
    without a valuation date; method YIELD without [yield_anual], or
    with date-shaped flows and no valuation date) or the method is no
    member of the enumeration, the call raises a [ValueError].  The
    error is the same for every schedule, also for schedules whose
    first flow would raise another exception as soon as it were
    processed: the validation comes before any flow, and nothing is
    accumulated. *)
Theorem validacion_antes_de_procesar_flujos
    (fv : option date) (metodo : valor_metodo) (curva : option (@DataFrame F))
    (s : F) (y : option F) (f : Z) (como_fechas : bool) :
  (metodo = Miembro CURVA /\
     (curva = None \/ como_fechas = false \/ fv = None)) \/
  (metodo = Miembro YIELD /\
     (y = None \/ (como_fechas = true /\ fv = None))) \/
  (exists texto, metodo = Otro texto) ->
  exists msg, forall flujos_caja : list flujo,
    calcular_valor_presente flujos_caja fv metodo curva s y f como_fechas
    = Raise (ValueError msg).
Proof.
  intros [[-> Hc]|[[-> Hy]|[texto ->]]]; simpl.
  - destruct curva as [c|]; [|eauto].
    destruct como_fechas; simpl; [|eauto].
    destruct fv as [d|]; [|eauto].
    destruct Hc as [Hc|[Hc|Hc]]; discriminate.
  - destruct y as [y0|]; [|eauto].
    destruct como_fechas; [|destruct Hy as [Hy|[Hy _]]; discriminate].
    destruct fv as [d|]; [|eauto].
    destruct Hy as [Hy|[_ Hy]]; discriminate.
  - eauto.
Qed.

End Valoracion.

(** ** Exact arithmetic *)

Local Open Scope R_scope.

Lemma entre_365_R (d : Z) : entre_365 d = IZR d / 365.
Proof. reflexivity. Qed.

Lemma R_es_cero_false (x : R) : x <> 0 -> R_es_cero x = false.
Proof. intros Hx; unfold R_es_cero; destruct (Req_dec_T x 0); [contradiction | reflexivity]. Qed.

Lemma R_le_true (x y : R) : x <= y -> R_le x y = true.
Proof. intros Hx; unfold R_le; destruct (Rle_dec x y); [reflexivity | contradiction]. Qed.

Lemma R_le_false (x y : R) : y < x -> R_le x y = false.
Proof. intros Hx; unfold R_le; destruct (Rle_dec x y); [lra | reflexivity]. Qed.

Lemma py_truediv_R (x y : R) : y <> 0 -> py_truediv x y = Ok (x / y).
Proof. intros Hy; unfold py_truediv; simpl. now rewrite R_es_cero_false. Qed.

Lemma R_pow_positiva (x y : R) : 0 < x -> R_pow x y = Ok (Rpower x y).
Proof. intros Hx; unfold R_pow; destruct (Rlt_dec 0 x); [reflexivity | contradiction]. Qed.

Lemma Rpower_no_nula (x y : R) : Rpower x y <> 0.
Proof. unfold Rpower; pose proof (exp_pos (y * ln x)); lra. Qed.

Lemma termino_yield_R (y : R) (f : Z) (T a : R) :
  f <> 0%Z -> 0 < 1 + y / IZR f ->
  termino_yield y f T a = Ok (a / Rpower (1 + y / IZR f) (T * IZR f)).
Proof.
  intros Hf Hb; unfold termino_yield.
  rewrite py_truediv_R by (apply not_0_IZR; exact Hf).
  cbn [bind float_pow fadd fmul of_int Flotante_R].
  rewrite R_pow_positiva by exact Hb.
  cbn [bind]. apply py_truediv_R, Rpower_no_nula.
Qed.

Lemma secuencia_Ok {A B : Type} (g : A -> B) (t : A -> res B) (l : list A) :
  (forall x, t x = Ok (g x)) ->
  secuencia (map t l) = Ok (map g l).
Proof.
  intros Ht; induction l as [|x l IH]; simpl; [reflexivity|].
  now rewrite Ht, IH.
Qed.

Lemma descontar_yield_sin_frecuencia (y T a vp : R) :
  descontar_yield y 0%Z T a vp = Raise ZeroDivisionError.
Proof.
  unfold descontar_yield, py_truediv.
  cbn [es_cero of_int Flotante_R]; unfold R_es_cero.
  destruct (Req_dec_T 0 0) as [_|N]; [reflexivity | now contradiction N].
Qed.

(** C4, as amended.  Method YIELD with annual yield [y] and compounding
    frequency [f] goes through the flows in the order of the schedule,
    keeps the date-shaped flows dated on or after the valuation date, with
    [T = (date - fecha_valoracion).days / 365.0], or the time-shaped flows
    whose [T] is not [<= 0], with the [T] supplied and no valuation date,
    and computes for each the term [amount / (1 + y/f) ^ (T * f)] with
    Python's [/] and [**].  For every arithmetic: if a term raises, the
    call raises that exception at the first such flow; otherwise it
    returns the sum of the terms, added in order from [0.0].  In exact
    arithmetic, for a non-zero frequency and a positive base [1 + y/f], no
    term raises and the result is the sum, over the flows with
    [date >= fecha_valoracion], respectively [T > 0], of
    [amount / (1 + y/f) ^ (T * f)]. *)
Theorem valor_presente_metodo_yield :
  (forall (F : Type) (H : Flotante F) (y : F) (f : Z)
          (curva : option (@DataFrame F)) (s : F),
      (forall (l : list (date * F)) (v : date),
          calcular_valor_presente (flujos_fechas l) (Some v) (Miembro YIELD)
                                  curva s (Some y) f true
          = suma_de_terminos
              (map (fun '(d, a) =>
                      termino_yield y f (fdiv (of_int (d - v)) (of_int 365)) a)
                   (filter (fun '(d, _) => (v <=? d)%Z) l))) /\
      (forall (l : list (F * F)) (fv : option date),
          calcular_valor_presente (flujos_tiempos l) fv (Miembro YIELD)
                                  curva s (Some y) f false
          = suma_de_terminos
              (map (fun '(T, a) => termino_yield y f T a)
                   (filter (fun '(T, _) => negb (fle T (of_int 0))) l)))) /\
  (forall (y : R) (f : Z),
      f <> 0%Z -> 0 < 1 + y / IZR f ->
      (forall (l : list (date * R)) (v : date) curva s,
          calcular_valor_presente (flujos_fechas l) (Some v) (Miembro YIELD)
                                  curva s (Some y) f true
          = Ok (suma (map (fun '(d, a) =>
                             a / Rpower (1 + y / IZR f)
                                        (IZR (d - v) / 365 * IZR f))
                          (filter (fun '(d, _) => (v <=? d)%Z) l)))) /\
      (forall (l : list (R * R)) (fv : option date) curva s,
          calcular_valor_presente (flujos_tiempos l) fv (Miembro YIELD)
                                  curva s (Some y) f false
          = Ok (suma (map (fun '(T, a) => a / Rpower (1 + y / IZR f) (T * IZR f))
                          (filter
                             (fun '(T, _) => if Rlt_dec 0 T then true else false)
                             l))))).
Proof.
  split.
  - intros F H y f curva s; split.
    + intros l v.
      destruct (valor_presente_yield_refina y f v curva s) as [-> _].
      reflexivity.
    + intros l fv.
      destruct (valor_presente_yield_refina y f 0%Z curva s) as [_ ->].
      reflexivity.
  - intros y f Hf Hb; split.
    + intros l v curva s.
      destruct (valor_presente_yield_refina y f v curva s) as [-> _].
      unfold vp_yield_fechas, suma_de_terminos, no_pasados.
      erewrite secuencia_Ok; [reflexivity|].
      intros [d a]; now rewrite termino_yield_R.
    + intros l fv curva s.
      destruct (valor_presente_yield_refina y f 0%Z curva s) as [_ ->].
      unfold vp_yield_tiempos, suma_de_terminos, no_vencidos.
      rewrite (secuencia_Ok
                 (fun '(T, a) => a / Rpower (1 + y / IZR f) (T * IZR f)))
        by (intros [T a]; now rewrite termino_yield_R).
      cbn [bind]. do 3 f_equal.
      apply filter_ext; intros [T a]; simpl.
      unfold R_le; destruct (Rle_dec T 0), (Rlt_dec 0 T); simpl; trivial; lra.
Qed.

(** C4, as stated, fails: with [frecuencia = 0] and a flow that is not
    skipped (here the flow of the scenario, [yield_anual] the float
    [0.04]) the call does not return a sum, it raises the
    [ZeroDivisionError] of [yield_anual / frecuencia]. *)
Lemma yield_sin_frecuencia_no_devuelve_suma :
  calcular_valor_presente flujos_escenario (Some fecha_2024_01_01)
                          (Miembro YIELD) None 0 (Some 0.04) 0%Z true
  = Raise ZeroDivisionError /\
  forall vp : R,
    calcular_valor_presente flujos_escenario (Some fecha_2024_01_01)
                            (Miembro YIELD) None 0 (Some 0.04) 0%Z true
    <> Ok vp.
Proof.
  assert (E : calcular_valor_presente flujos_escenario (Some fecha_2024_01_01)
                (Miembro YIELD) None 0 (Some 0.04) 0%Z true
              = Raise ZeroDivisionError).
  { cbn [flujos_escenario calcular_valor_presente for_each cuerpo_yield_fechas].
    change (fecha_2025_01_01 <? fecha_2024_01_01)%Z with false; cbv iota.
    now rewrite descontar_yield_sin_frecuencia. }
  split; [exact E | intros vp; rewrite E; discriminate].
Qed.

(** C5. A flow dated strictly before the valuation date (method CURVA and
    date-shaped YIELD) or with a time [T <= 0] (time-shaped YIELD) adds
    nothing to the present value, whatever its amount: the result is the
    one of the schedule without that flow.  The two cut-offs differ: a
    date-shaped flow dated on the valuation date is kept and discounted
    with [T = 0] (so, under YIELD, it enters with its full amount), a
    time-shaped flow with [T = 0] is dropped. *)
Theorem flujos_pasados_no_contribuyen :
  (forall (curva : @DataFrame R) s y f v (l1 l2 : list (date * R)) d a,
      (d < v)%Z ->
      calcular_valor_presente (flujos_fechas (l1 ++ (d, a) :: l2)) (Some v)
                              (Miembro CURVA) (Some curva) s y f true
      = calcular_valor_presente (flujos_fechas (l1 ++ l2)) (Some v)
                                (Miembro CURVA) (Some curva) s y f true) /\
  (forall (curva : option (@DataFrame R)) s y f v (l1 l2 : list (date * R)) d a,
      (d < v)%Z ->
      calcular_valor_presente (flujos_fechas (l1 ++ (d, a) :: l2)) (Some v)
                              (Miembro YIELD) curva s (Some y) f true
      = calcular_valor_presente (flujos_fechas (l1 ++ l2)) (Some v)
                                (Miembro YIELD) curva s (Some y) f true) /\
  (forall (curva : option (@DataFrame R)) s y f fv (l1 l2 : list (R * R)) T a,
      T <= 0 ->
      calcular_valor_presente (flujos_tiempos (l1 ++ (T, a) :: l2)) fv
                              (Miembro YIELD) curva s (Some y) f false
      = calcular_valor_presente (flujos_tiempos (l1 ++ l2)) fv
                                (Miembro YIELD) curva s (Some y) f false) /\
  (forall (curva : option (@DataFrame R)) s y f v a,
      f <> 0%Z -> 0 < 1 + y / IZR f ->
      calcular_valor_presente (flujos_fechas [(v, a)]) (Some v)
                              (Miembro YIELD) curva s (Some y) f true
      = Ok (0 + a / Rpower (1 + y / IZR f) (0 * IZR f))
      /\ 0 + a / Rpower (1 + y / IZR f) (0 * IZR f) = a) /\
  (forall (curva : @DataFrame R) s y f v a DF_curve,
      interpolar_factor_descuento v curva v = Ok DF_curve ->
      calcular_valor_presente (flujos_fechas [(v, a)]) (Some v)
                              (Miembro CURVA) (Some curva) s y f true
      = Ok (0 + a * (DF_curve * exp (- s * 0)))) /\
  (forall (curva : option (@DataFrame R)) s y f fv a,
      calcular_valor_presente (flujos_tiempos [(0, a)]) fv
                              (Miembro YIELD) curva s (Some y) f false
      = Ok 0).
Proof.
  repeat apply conj.
  - intros curva s y f v l1 l2 d a Hd.
    unfold flujos_fechas; rewrite !map_app; cbn [map calcular_valor_presente negb].
    apply for_each_omite; intros vp; now apply cuerpo_curva_pasado.
  - intros curva s y f v l1 l2 d a Hd.
    unfold flujos_fechas; rewrite !map_app; cbn [map calcular_valor_presente].
    apply for_each_omite; intros vp; now apply cuerpo_yield_fechas_pasado.
  - intros curva s y f fv l1 l2 T a HT.
    unfold flujos_tiempos; rewrite !map_app; cbn [map calcular_valor_presente].
    apply for_each_omite; intros vp.
    apply cuerpo_yield_tiempos_vencido; now apply R_le_true.
  - intros curva s y f v a Hf Hb.
    assert (E0 : Rpower (1 + y / IZR f) (0 * IZR f) = 1)
      by (rewrite Rmult_0_l; now apply Rpower_O).
    split; [|rewrite E0; field].
    cbn [flujos_fechas map calcular_valor_presente for_each cuerpo_yield_fechas].
    rewrite Z.ltb_irrefl, descontar_yield_termino, termino_yield_R by assumption.
    cbn [bind]. rewrite entre_365_R, Z.sub_diag.
    replace (0 / 365) with 0 by field. reflexivity.
  - intros curva s y f v a DF HDF.
    cbn [flujos_fechas map calcular_valor_presente for_each cuerpo_curva negb].
    rewrite Z.ltb_irrefl, HDF. cbn [bind].
    rewrite entre_365_R, Z.sub_diag.
    replace (0 / 365) with 0 by field. reflexivity.
  - intros curva s y f fv a.
    cbn [flujos_tiempos map calcular_valor_presente for_each cuerpo_yield_tiempos].
    replace (fle 0 (of_int 0)) with true; [reflexivity|].
    symmetry; apply R_le_true; simpl; lra.
Qed.

(** ** The YIELD scenario: 1000 paid on 2025-01-01, valued on 2024-01-01 *)

Lemma dias_del_escenario : (fecha_2025_01_01 - fecha_2024_01_01)%Z = 366%Z.
Proof. reflexivity. Qed.

Lemma ln_1_02_cotas : 0.02 / 1.02 < ln 1.02 < 0.02.
Proof.
  split.
  - apply exp_lt_inv. rewrite exp_ln by lra.
    assert (Hm : 1 + - (0.02 / 1.02) < exp (- (0.02 / 1.02)))
      by (apply exp_ineq1; lra).
    rewrite exp_Ropp in Hm.
    pose proof (exp_pos (0.02 / 1.02)) as Hp.
    assert (Hi : exp (0.02 / 1.02) * / exp (0.02 / 1.02) = 1)
      by (apply Rinv_r; lra).
    replace (1 + - (0.02 / 1.02)) with (/ 1.02) in Hm by lra.
    assert (H102 : 1.02 * / 1.02 = 1) by (apply Rinv_r; lra).
    assert (Hq : 0 < / 1.02) by (apply Rinv_0_lt_compat; lra).
    nra.
  - apply exp_lt_inv. rewrite exp_ln by lra.
    pose proof (exp_ineq1 0.02); lra.
Qed.

(** The discount factor of the scenario is a little above [1.02 ^ 2]. *)
Lemma factor_del_escenario_cotas :
  1.04051 < Rpower (1 + 0.04 / 2) (366 / 365 * 2) < 1.040515.
Proof.
  replace (1 + 0.04 / 2) with 1.02 by lra.
  unfold Rpower.
  destruct ln_1_02_cotas as [Hlo Hhi].
  replace (366 / 365 * 2 * ln 1.02)
    with (ln 1.02 + (ln 1.02 + 2 / 365 * ln 1.02)) by lra.
  rewrite 2 exp_plus, exp_ln by lra.
  set (x := 2 / 365 * ln 1.02).
  assert (Hx : 2 / 365 * (0.02 / 1.02) < x < 2 / 365 * 0.02)
    by (unfold x; lra).
  assert (Hx1 : 0.000107 < x < 0.00011) by lra.
  assert (H1 : 1 + x < exp x) by (apply exp_ineq1; lra).
  assert (H2 : 1 + - x < exp (- x)) by (apply exp_ineq1; lra).
  assert (H3 : exp x * exp (- x) = 1)
    by (rewrite <- exp_plus, Rplus_opp_r; apply exp_0).
  pose proof (exp_pos x) as Hp.
  assert (H4 : exp x * (1 - x) < 1) by nra.
  assert (H5 : exp x < 1.000111) by nra.
  split; nra.
Qed.

Lemma valor_del_escenario :
  calcular_valor_presente flujos_escenario (Some fecha_2024_01_01)
                          (Miembro YIELD) None 0 (Some 0.04) 2%Z true
  = Ok (0 + 1000 / Rpower (1 + 0.04 / 2) (366 / 365 * 2)).
Proof.
  cbn [flujos_escenario calcular_valor_presente for_each cuerpo_yield_fechas].
  change (fecha_2025_01_01 <? fecha_2024_01_01)%Z with false; cbv iota.
  rewrite descontar_yield_termino, termino_yield_R by (try discriminate; lra).
  rewrite dias_del_escenario; reflexivity.
Qed.

(** C6, as amended.  2024 is a leap year: from 2024-01-01 to 2025-01-01
    there are 366 days, so the year fraction is [366 / 365], not [1]; the
    discount factor is [1.02 ^ (2 * 366 / 365)], between 1.04051 and
    1.040515, and the present value returned is [1000] divided by it,
    between 961.06 and 961.07. *)
Theorem escenario_yield_semestral :
  entre_365 (fecha_2025_01_01 - fecha_2024_01_01) = 366 / 365 /\
  calcular_valor_presente flujos_escenario (Some fecha_2024_01_01)
                          (Miembro YIELD) None 0 (Some 0.04) 2%Z true
  = Ok (0 + 1000 / Rpower (1 + 0.04 / 2) (366 / 365 * 2)) /\
  1.04051 < Rpower (1 + 0.04 / 2) (366 / 365 * 2) < 1.040515 /\
  961.06 < 0 + 1000 / Rpower (1 + 0.04 / 2) (366 / 365 * 2) < 961.07.
Proof.
  split; [now rewrite dias_del_escenario|].
  split; [exact valor_del_escenario|].
  pose proof factor_del_escenario_cotas as HDF.
  split; [exact HDF|].
  set (DF := Rpower (1 + 0.04 / 2) (366 / 365 * 2)) in *.
  assert (E : 1000 / DF * DF = 1000) by (field; lra).
  assert (Hp : 0 < 1000 / DF) by (apply Rdiv_lt_0_compat; lra).
  split; nra.
Qed.

(** C6, as stated, fails: the year fraction of the scenario is not [1.0],
    and the value returned is below 961.07, short of 961.17. *)
Lemma escenario_yield_plazo_no_es_uno :
  entre_365 (fecha_2025_01_01 - fecha_2024_01_01) <> 1 /\
  exists vp,
    calcular_valor_presente flujos_escenario (Some fecha_2024_01_01)
                            (Miembro YIELD) None 0 (Some 0.04) 2%Z true
    = Ok vp /\ vp < 961.07.
Proof.
  split.
  - rewrite dias_del_escenario, entre_365_R; lra.
  - eexists; split; [exact valor_del_escenario|].
    pose proof factor_del_escenario_cotas as HDF.
    set (DF := Rpower (1 + 0.04 / 2) (366 / 365 * 2)) in *.
    assert (E : 1000 / DF * DF = 1000) by (field; lra).
    assert (Hp : 0 < 1000 / DF) by (apply Rdiv_lt_0_compat; lra).
    nra.
Qed.

(** ** The interpolation weight and the interior branch *)

(** The rows the interior branch selects lie on either side of the query. *)
Lemma puntos_seleccionados (curva : @DataFrame R) (q : date) p1 p2 :
  iloc_m1 (puntos_anteriores q curva) = Ok p1 ->
  iloc_0 (puntos_posteriores q curva) = Ok p2 ->
  (Date p1 < q < Date p2)%Z.
Proof.
  intros H1 H2.
  apply iloc_m1_In, en_anteriores in H1.
  apply iloc_0_In, en_posteriores in H2.
  tauto.
Qed.

(** In exact arithmetic the valuation date cancels out of the weight. *)
Lemma peso_sin_fecha_valoracion (t1 t2 q v : date) :
  t1 <> t2 ->
  (entre_365 (q - v) - entre_365 (t1 - v))
  / (entre_365 (t2 - v) - entre_365 (t1 - v))
  = IZR (q - t1) / IZR (t2 - t1).
Proof.
  intros Ht; rewrite !entre_365_R, !minus_IZR.
  assert (IZR t2 - IZR t1 <> 0).
  { intros E; apply Ht; symmetry; apply eq_IZR; lra. }
  field; lra.
Qed.

Lemma log_lineal_peso (p1 p2 : @fila R) (q v : date) :
  Date p1 <> Date p2 ->
  log_lineal p1 p2 q v
  = exp (ln (Discount p1)
         + (ln (Discount p2) - ln (Discount p1))
           * (IZR (q - Date p1) / IZR (Date p2 - Date p1))).
Proof.
  intros Ht; unfold log_lineal; cbv zeta.
  rewrite <- (peso_sin_fecha_valoracion (Date p1) (Date p2) q v Ht).
  cbn [fadd fsub fmul fdiv np_log np_exp Flotante_R].
  unfold Rdiv; now rewrite Rmult_assoc.
Qed.

Lemma peso_cotas (t1 t2 q : date) :
  (t1 < q < t2)%Z -> 0 < IZR (q - t1) / IZR (t2 - t1) < 1.
Proof.
  intros [H1 H2].
  assert (0 < IZR (q - t1)) by (apply IZR_lt; lia).
  assert (IZR (q - t1) < IZR (t2 - t1)) by (apply IZR_lt; lia).
  split.
  - apply Rdiv_lt_0_compat; lra.
  - apply Rmult_lt_reg_r with (IZR (t2 - t1)); [lra|].
    unfold Rdiv; rewrite Rmult_assoc, Rinv_l by lra. lra.
Qed.

Lemma peso_creciente (t1 t2 q q' : date) :
  (t1 < t2)%Z -> (q < q')%Z ->
  IZR (q - t1) / IZR (t2 - t1) < IZR (q' - t1) / IZR (t2 - t1).
Proof.
  intros H1 H2.
  assert (0 < IZR (t2 - t1)) by (apply IZR_lt; lia).
  assert (IZR (q - t1) < IZR (q' - t1)) by (apply IZR_lt; lia).
  unfold Rdiv; apply Rmult_lt_compat_r; [now apply Rinv_0_lt_compat | assumption].
Qed.

(** C8. Whenever the interior branch is reached, that is, some row is
    dated strictly before the query and some row strictly after, the rows
    it selects satisfy [t1 < t2] in whole days, the denominator [T2 - T1]
    is at least [1/365], hence positive and not zero, and (when no row
    matches the query) the function returns the log-linear value on those
    rows.  The selected dates lie on either side of the query, so this
    holds for every curve; a curve sorted strictly ascending is a special
    case. *)
Theorem intervalo_de_interpolacion_no_degenerado
    (curva : @DataFrame R) (q v : date) :
  puntos_anteriores q curva <> [] ->
  puntos_posteriores q curva <> [] ->
  exists punto_1 punto_2,
    iloc_m1 (puntos_anteriores q curva) = Ok punto_1 /\
    iloc_0 (puntos_posteriores q curva) = Ok punto_2 /\
    (Date punto_1 < Date punto_2)%Z /\
    (let T1 := entre_365 (Date punto_1 - v) in
     let T2 := entre_365 (Date punto_2 - v) in
     1 / 365 <= T2 - T1 /\ 0 < T2 - T1 /\ T2 - T1 <> 0) /\
    (coincidencia q curva = [] ->
     interpolar_factor_descuento q curva v
     = Ok (log_lineal punto_1 punto_2 q v)).
Proof.
  intros Ha Hp.
  destruct (iloc_m1_total _ Ha) as [p1 E1], (iloc_0_total _ Hp) as [p2 E2].
  exists p1, p2.
  pose proof (puntos_seleccionados curva q p1 p2 E1 E2) as Hq.
  split; [exact E1|]. split; [exact E2|]. split; [lia|]. split.
  - cbv zeta; rewrite !entre_365_R, !minus_IZR.
    assert (IZR (Date p1) + 1 <= IZR (Date p2)).
    { rewrite <- plus_IZR; apply IZR_le; lia. }
    repeat split; lra.
  - intros Ec; unfold interpolar_factor_descuento; cbv zeta.
    rewrite Ec; simpl negb; cbv iota.
    apply empty_false in Ha, Hp; rewrite Ha, Hp, E1, E2; reflexivity.
Qed.

(** C10. The value returned does not depend on the valuation date: the
    exact-match and flat-extrapolation branches do not use it, and in the
    interior branch the weight [(T - T1) / (T2 - T1)] is
    [(query - t1).days / (t2 - t1).days] whatever the valuation date, so
    two calls that differ only in it return the same result. *)
Theorem factor_independiente_de_fecha_valoracion :
  (forall (curva : @DataFrame R) (q v v' : date),
      interpolar_factor_descuento q curva v
      = interpolar_factor_descuento q curva v') /\
  (forall (curva : @DataFrame R) (q v : date) punto_1 punto_2,
      iloc_m1 (puntos_anteriores q curva) = Ok punto_1 ->
      iloc_0 (puntos_posteriores q curva) = Ok punto_2 ->
      (entre_365 (q - v) - entre_365 (Date punto_1 - v))
      / (entre_365 (Date punto_2 - v) - entre_365 (Date punto_1 - v))
      = IZR (q - Date punto_1) / IZR (Date punto_2 - Date punto_1)).
Proof.
  split.
  - intros curva q v v'; unfold interpolar_factor_descuento; cbv zeta.
    destruct (negb (empty (coincidencia q curva))); [reflexivity|].
    destruct (empty (puntos_anteriores q curva)); [reflexivity|].
    destruct (empty (puntos_posteriores q curva)); [reflexivity|].
    destruct (iloc_m1 (puntos_anteriores q curva)) as [p1|e] eqn:E1;
      [|reflexivity].
    destruct (iloc_0 (puntos_posteriores q curva)) as [p2|e] eqn:E2;
      [|reflexivity].
    pose proof (puntos_seleccionados curva q p1 p2 E1 E2) as Hq.
    cbn [bind]. rewrite 2 log_lineal_peso by lia. reflexivity.
  - intros curva q v p1 p2 E1 E2.
    pose proof (puntos_seleccionados curva q p1 p2 E1 E2) as Hq.
    apply peso_sin_fecha_valoracion; lia.
Qed.

(** C9. On a curve with dates strictly ascending and positive factors
    strictly decreasing, a query strictly between two consecutive rows
    gets a factor strictly between the factors of the two rows, and a
    later query in the same interval gets a strictly smaller factor. *)
Theorem interpolacion_monotona_entre_pivotes
    (l1 l2 : @DataFrame R) (p1 p2 : @fila R) (v : date) :
  ascendente (l1 ++ p1 :: p2 :: l2) ->
  positiva (l1 ++ p1 :: p2 :: l2) ->
  decreciente (l1 ++ p1 :: p2 :: l2) ->
  (forall q, (Date p1 < q < Date p2)%Z ->
     exists df,
       interpolar_factor_descuento q (l1 ++ p1 :: p2 :: l2) v = Ok df /\
       Discount p2 < df < Discount p1) /\
  (forall q q', (Date p1 < q)%Z -> (q < q')%Z -> (q' < Date p2)%Z ->
     exists df df',
       interpolar_factor_descuento q (l1 ++ p1 :: p2 :: l2) v = Ok df /\
       interpolar_factor_descuento q' (l1 ++ p1 :: p2 :: l2) v = Ok df' /\
       df' < df).
Proof.
  intros Hs Hpos Hdec.
  assert (Hf1 : 0 < Discount p1).
  { unfold positiva in Hpos; rewrite Forall_forall in Hpos.
    apply Hpos, in_or_app; right; now left. }
  assert (Hf2 : 0 < Discount p2).
  { unfold positiva in Hpos; rewrite Forall_forall in Hpos.
    apply Hpos, in_or_app; right; right; now left. }
  assert (Hf : Discount p2 < Discount p1).
  { unfold decreciente in Hdec; rewrite map_app in Hdec; simpl in Hdec.
    apply StronglySorted_app_inv in Hdec as (_ & Hdec & _).
    apply StronglySorted_inv in Hdec as [_ Hdec].
    now inversion Hdec. }
  assert (Hln : ln (Discount p2) < ln (Discount p1))
    by (now apply ln_increasing).
  split.
  - intros q Hq.
    rewrite (interpolar_entre_pivotes l1 l2 p1 p2 q v Hs Hq).
    eexists; split; [reflexivity|].
    rewrite log_lineal_peso by lia.
    destruct (peso_cotas (Date p1) (Date p2) q Hq) as [Hw0 Hw1].
    set (w := IZR (q - Date p1) / IZR (Date p2 - Date p1)) in *.
    split.
    + rewrite <- (exp_ln (Discount p2)) at 1 by assumption.
      apply exp_increasing; nra.
    + rewrite <- (exp_ln (Discount p1)) at 3 by assumption.
      apply exp_increasing; nra.
  - intros q q' Hq1 Hqq Hq2.
    rewrite (interpolar_entre_pivotes l1 l2 p1 p2 q v Hs) by lia.
    rewrite (interpolar_entre_pivotes l1 l2 p1 p2 q' v Hs) by lia.
    do 2 eexists; split; [reflexivity|]; split; [reflexivity|].
    rewrite 2 log_lineal_peso by lia.
    assert (Hw : IZR (q - Date p1) / IZR (Date p2 - Date p1)
                 < IZR (q' - Date p1) / IZR (Date p2 - Date p1))
      by (apply peso_creciente; lia).
    apply exp_increasing; nra.
Qed.

(** * Worked instances

    Each conditional theorem above, applied to a concrete curve or
    schedule with its conditions checked. *)

Ltac ordenada :=
  repeat first
    [ apply SSorted_nil | apply SSorted_cons | apply Forall_nil
    | apply Forall_cons | reflexivity | simpl; lra ].

(** The scenario curve, valued on 2024-01-01 and queried on 2024-07-02. *)
Lemma interpolacion_interior_log_lineal_witness :
  exists p1 p2 : @fila R,
    In p1 curva_ejemplo /\ In p2 curva_ejemplo /\
    (Date p1 < fecha_2024_07_02 < Date p2)%Z /\
    (forall p, In p curva_ejemplo ->
               (Date p < fecha_2024_07_02)%Z -> (Date p <= Date p1)%Z) /\
    (forall p, In p curva_ejemplo ->
               (fecha_2024_07_02 < Date p)%Z -> (Date p2 <= Date p)%Z) /\
    let T1 := fdiv (of_int (Date p1 - fecha_2024_01_01)) (of_int 365) in
    let T2 := fdiv (of_int (Date p2 - fecha_2024_01_01)) (of_int 365) in
    let T :=
      fdiv (of_int (fecha_2024_07_02 - fecha_2024_01_01)) (of_int 365) in
    let ln_df1 := np_log (Discount p1) in
    let ln_df2 := np_log (Discount p2) in
    interpolar_factor_descuento fecha_2024_07_02 curva_ejemplo fecha_2024_01_01
    = Ok (np_exp (fadd ln_df1
                       (fdiv (fmul (fsub ln_df2 ln_df1) (fsub T T1))
                             (fsub T2 T1)))).
Proof.
  apply (interpolacion_interior_log_lineal
           curva_ejemplo fecha_2024_01_01 fecha_2024_07_02
           (Fila fecha_2024_01_01 1) (Fila fecha_2025_01_01 0.95)).
  - unfold ascendente; simpl; ordenada.
  - reflexivity.
  - reflexivity.
  - split; reflexivity.
  - simpl; intros [E|[E|[]]]; vm_compute in E; discriminate E.
Defined.

Lemma coincidencia_exacta_y_extrapolacion_plana_witness :
  interpolar_factor_descuento fecha_2025_01_01 curva_ejemplo fecha_2024_01_01
  = Ok 0.95 /\
  interpolar_factor_descuento 5%Z curva_tres fecha_2024_01_01 = Ok 1 /\
  interpolar_factor_descuento 50%Z curva_tres fecha_2024_01_01 = Ok 0.8 /\
  interpolar_factor_descuento 7%Z [Fila 10%Z 1] fecha_2024_01_01 = Ok 1.
Proof.
  destruct (@coincidencia_exacta_y_extrapolacion_plana R _ fecha_2024_01_01)
    as (Hexacta & Hantes & Hdespues & Hunico).
  split; [|split; [|split]].
  - apply (Hexacta curva_ejemplo (Fila fecha_2025_01_01 0.95)).
    + simpl; repeat constructor; simpl.
      * intros [E|[]]; vm_compute in E; discriminate E.
      * intros [].
    + right; left; reflexivity.
  - apply (Hantes (Fila 10%Z 1) [Fila 20%Z 0.9; Fila 40%Z 0.8] 5%Z).
    repeat constructor.
  - apply (Hdespues [Fila 10%Z 1; Fila 20%Z 0.9] (Fila 40%Z 0.8) 50%Z).
    repeat constructor.
  - apply (Hunico (Fila 10%Z 1) 7%Z).
Defined.

(** A schedule with one past flow and one flow on the last curve date. *)
Lemma valor_presente_metodo_curva_witness :
  exists DF_curve : date -> R,
    (forall d, interpolar_factor_descuento d curva_ejemplo fecha_2024_01_01
               = Ok (DF_curve d)) /\
    calcular_valor_presente
      (flujos_fechas [(5%Z, 50); (fecha_2025_01_01, 1000)])
      (Some fecha_2024_01_01) (Miembro CURVA) (Some curva_ejemplo)
      0.01 None 2%Z true
    = Ok (suma (map (fun '(d, a) =>
                       let T :=
                         fdiv (of_int (d - fecha_2024_01_01)) (of_int 365) in
                       fmul a (fmul (DF_curve d) (np_exp (fmul (fneg 0.01) T))))
                    (filter (fun '(d, _) => (fecha_2024_01_01 <=? d)%Z)
                            [(5%Z, 50); (fecha_2025_01_01, 1000)]))).
Proof.
  apply (valor_presente_metodo_curva
           curva_ejemplo 0.01 None 2%Z fecha_2024_01_01
           [(5%Z, 50); (fecha_2025_01_01, 1000)]).
  discriminate.
Defined.

Lemma valor_presente_metodo_yield_witness :
  (forall (l : list (date * R)) (v : date) curva s,
      calcular_valor_presente (flujos_fechas l) (Some v) (Miembro YIELD)
                              curva s (Some 0.04) 2%Z true
      = Ok (suma (map (fun '(d, a) =>
                         a / Rpower (1 + 0.04 / IZR 2) (IZR (d - v) / 365 * IZR 2))
                      (filter (fun '(d, _) => (v <=? d)%Z) l)))) /\
  (forall (l : list (R * R)) (fv : option date) curva s,
      calcular_valor_presente (flujos_tiempos l) fv (Miembro YIELD)
                              curva s (Some 0.04) 2%Z false
      = Ok (suma (map (fun '(T, a) => a / Rpower (1 + 0.04 / IZR 2) (T * IZR 2))
                      (filter (fun '(T, _) => if Rlt_dec 0 T then true else false)
                              l)))).
Proof.
  apply (proj2 valor_presente_metodo_yield 0.04 2%Z); [discriminate | lra].
Defined.

Lemma validacion_antes_de_procesar_flujos_witness :
  exists msg, forall flujos_caja : list (@flujo R),
    calcular_valor_presente flujos_caja (Some fecha_2024_01_01)
                            (Miembro CURVA) None 0 None 2%Z true
    = Raise (ValueError msg).
Proof.
  apply (validacion_antes_de_procesar_flujos
           (Some fecha_2024_01_01) (Miembro CURVA) None 0 None 2%Z true).
  left; split; [reflexivity | left; reflexivity].
Defined.

Lemma intervalo_de_interpolacion_no_degenerado_witness :
  exists punto_1 punto_2,
    iloc_m1 (puntos_anteriores 15%Z curva_tres) = Ok punto_1 /\
    iloc_0 (puntos_posteriores 15%Z curva_tres) = Ok punto_2 /\
    (Date punto_1 < Date punto_2)%Z /\
    (let T1 := entre_365 (Date punto_1 - 0) in
     let T2 := entre_365 (Date punto_2 - 0) in
     1 / 365 <= T2 - T1 /\ 0 < T2 - T1 /\ T2 - T1 <> 0) /\
    (coincidencia 15%Z curva_tres = [] ->
     interpolar_factor_descuento 15%Z curva_tres 0%Z
     = Ok (log_lineal punto_1 punto_2 15%Z 0%Z)).
Proof.
  apply (intervalo_de_interpolacion_no_degenerado curva_tres 15%Z 0%Z);
    simpl; discriminate.
Defined.

Lemma interpolacion_monotona_entre_pivotes_witness :
  (forall q, (20 < q < 40)%Z ->
     exists df,
       interpolar_factor_descuento q curva_tres 0%Z = Ok df /\ 0.8 < df < 0.9) /\
  (forall q q', (20 < q)%Z -> (q < q')%Z -> (q' < 40)%Z ->
     exists df df',
       interpolar_factor_descuento q curva_tres 0%Z = Ok df /\
       interpolar_factor_descuento q' curva_tres 0%Z = Ok df' /\
       df' < df).
Proof.
  apply (interpolacion_monotona_entre_pivotes
           [Fila 10%Z 1] [] (Fila 20%Z 0.9) (Fila 40%Z 0.8) 0%Z).
  - unfold ascendente; simpl; ordenada.
  - unfold positiva; simpl; ordenada.
  - unfold decreciente; simpl; ordenada.
Defined.

Lemma factor_independiente_de_fecha_valoracion_witness :
  interpolar_factor_descuento 15%Z curva_tres 0%Z
  = interpolar_factor_descuento 15%Z curva_tres fecha_2024_01_01 /\
  (entre_365 (15 - 0) - entre_365 (10 - 0))
  / (entre_365 (20 - 0) - entre_365 (10 - 0))
  = IZR (15 - 10) / IZR (20 - 10).
Proof.
  destruct factor_independiente_de_fecha_valoracion as [Hind Hpeso].
  split.
  - apply Hind.
  - apply (Hpeso curva_tres 15%Z 0%Z (Fila 10%Z 1) (Fila 20%Z 0.9));
      reflexivity.
Defined.

Lemma flujos_pasados_no_contribuyen_witness :
  calcular_valor_presente
    (flujos_fechas ([] ++ (5%Z, 50) :: [(fecha_2025_01_01, 1000)]))
    (Some fecha_2024_01_01) (Miembro CURVA) (Some curva_ejemplo) 0.01 None 2%Z true
  = calcular_valor_presente
      (flujos_fechas ([] ++ [(fecha_2025_01_01, 1000)]))
      (Some fecha_2024_01_01) (Miembro CURVA) (Some curva_ejemplo) 0.01 None 2%Z
      true /\
  calcular_valor_presente
    (flujos_fechas ([] ++ (5%Z, 50) :: [(fecha_2025_01_01, 1000)]))
    (Some fecha_2024_01_01) (Miembro YIELD) None 0 (Some 0.04) 2%Z true
  = calcular_valor_presente
      (flujos_fechas ([] ++ [(fecha_2025_01_01, 1000)]))
      (Some fecha_2024_01_01) (Miembro YIELD) None 0 (Some 0.04) 2%Z true /\
  calcular_valor_presente
    (flujos_tiempos ([] ++ (-1, 50) :: [(1, 1000)]))
    None (Miembro YIELD) None 0 (Some 0.04) 2%Z false
  = calcular_valor_presente
      (flujos_tiempos ([] ++ [(1, 1000)]))
      None (Miembro YIELD) None 0 (Some 0.04) 2%Z false /\
  calcular_valor_presente
    (flujos_fechas [(fecha_2024_01_01, 1000)])
    (Some fecha_2024_01_01) (Miembro YIELD) None 0 (Some 0.04) 2%Z true
  = Ok (0 + 1000 / Rpower (1 + 0.04 / IZR 2) (0 * IZR 2)) /\
  calcular_valor_presente
    (flujos_fechas [(fecha_2024_01_01, 1000)])
    (Some fecha_2024_01_01) (Miembro CURVA) (Some curva_ejemplo) 0.01 None 2%Z true
  = Ok (0 + 1000 * (1 * exp (- (0.01) * 0))) /\
  calcular_valor_presente
    (flujos_tiempos [(0, 1000)])
    None (Miembro YIELD) None 0 (Some 0.04) 2%Z false
  = Ok 0.
Proof.
  destruct flujos_pasados_no_contribuyen
    as (Hcurva & Hfechas & Htiempos & Hhoy_yield & Hhoy_curva & Hcero).
  repeat apply conj.
  - apply (Hcurva curva_ejemplo 0.01 None 2%Z fecha_2024_01_01
                  [] [(fecha_2025_01_01, 1000)] 5%Z 50).
    reflexivity.
  - apply (Hfechas None 0 0.04 2%Z fecha_2024_01_01
                   [] [(fecha_2025_01_01, 1000)] 5%Z 50).
    reflexivity.
  - apply (Htiempos None 0 0.04 2%Z None [] [(1, 1000)] (-1) 50). lra.
  - destruct (Hhoy_yield None 0 0.04 2%Z fecha_2024_01_01 1000) as [E _];
      [discriminate | lra | exact E].
  - apply (Hhoy_curva curva_ejemplo 0.01 None 2%Z fecha_2024_01_01 1000 1).
    reflexivity.
  - apply (Hcero None 0 0.04 2%Z None 1000).
Defined.

(** * Further properties of the two functions *)

(** ** The interpolator on arbitrary frames *)

Section InterpoladorGeneral.

Context {F : Type} `{Flotante F}.

Implicit Types (curva : @DataFrame F) (p : @fila F) (q v : date).

(** X1. The [IndexError] of [.iloc] arises on a frame without rows and
    nowhere else: when the call raises [IndexError] the frame is empty
    (on a frame with rows every [.iloc] access is in bounds, being made
    on a frame just tested non-empty or on the curve itself), and on an
    empty frame, for a query date that [pd.Timestamp] can hold, the call
    raises [IndexError] whatever the valuation date. *)
Theorem IndexError_solo_con_curva_vacia curva q v :
  (interpolar_factor_descuento q curva v = Raise IndexError -> curva = []) /\
  (representable q ->
   interpolar_factor_descuento q (@nil (@fila F)) v = Raise IndexError).
Proof.
  split.
  - intros Hr. destruct curva as [|p l]; [reflexivity|].
    destruct (interpolar_total q (p :: l) v) as [df E]; [discriminate|].
    rewrite E in Hr; discriminate.
  - intros _; reflexivity.
Qed.

Lemma coincidencia_tras_prefijo (l1 l2 : DataFrame) p :
  (forall p', In p' l1 -> Date p' <> Date p) ->
  coincidencia (Date p) (l1 ++ p :: l2) = p :: coincidencia (Date p) l2.
Proof.
  intros Hl1; unfold coincidencia.
  rewrite filter_app, filter_ninguno.
  - simpl; now rewrite Z.eqb_refl.
  - rewrite Forall_forall; intros p' Hp'; apply Z.eqb_neq; now apply Hl1.
Qed.

(** X2. With repeated dates the first row wins: a query at the date of a
    row that no earlier row of the frame shares returns the stored factor
    of that row, whatever comes after it, sorted or not. *)
Theorem primera_coincidencia_gana (l1 l2 : DataFrame) p v :
  (forall p', In p' l1 -> Date p' <> Date p) ->
  interpolar_factor_descuento (Date p) (l1 ++ p :: l2) v = Ok (Discount p).
Proof.
  intros Hl1; unfold interpolar_factor_descuento; cbv zeta.
  now rewrite (coincidencia_tras_prefijo l1 l2 p Hl1).
Qed.

(** X3. Interpolation is local: between two consecutive rows of an
    ascending curve the result is the one of the two-row curve made of
    those rows; the other rows play no role. *)
Theorem interpolacion_local (l1 l2 : DataFrame) p1 p2 q v :
  ascendente (l1 ++ p1 :: p2 :: l2) ->
  (Date p1 < q < Date p2)%Z ->
  interpolar_factor_descuento q (l1 ++ p1 :: p2 :: l2) v
  = interpolar_factor_descuento q [p1; p2] v.
Proof.
  intros Hs Hq.
  rewrite (interpolar_entre_pivotes l1 l2 p1 p2 q v Hs Hq).
  symmetry; apply (interpolar_entre_pivotes [] [] p1 p2 q v); [|exact Hq].
  unfold ascendente; simpl; repeat constructor; lia.
Qed.

End InterpoladorGeneral.

(** ** The interpolated values, in exact arithmetic *)

Lemma exp_monotona (x y : R) : x <= y -> exp x <= exp y.
Proof.
  intros [Hlt| ->]; [left; now apply exp_increasing | right; reflexivity].
Qed.

Lemma ln_monotona (x y : R) : 0 < x -> x <= y -> ln x <= ln y.
Proof.
  intros Hx [Hlt| ->]; [left; now apply ln_increasing | right; reflexivity].
Qed.

(** X4. The factor returned never leaves the range of the curve: if every
    stored factor lies in [[lo, hi]] with [lo] positive, so does the
    result for every query date, before, on, between or after the rows.
    In particular it is positive, and a curve with one constant factor
    returns that factor everywhere. *)
Theorem factor_dentro_del_rango (curva : @DataFrame R) (q v : date) (lo hi : R) :
  0 < lo ->
  curva <> [] ->
  Forall (fun p => lo <= Discount p <= hi) curva ->
  exists df, interpolar_factor_descuento q curva v = Ok df /\ lo <= df <= hi.
Proof.
  intros Hlo Hne Hall; rewrite Forall_forall in Hall.
  unfold interpolar_factor_descuento; cbv zeta.
  destruct (empty (coincidencia q curva)) eqn:Ec; simpl negb; cbv iota.
  - destruct (empty (puntos_anteriores q curva)) eqn:Ea.
    + destruct (iloc_0_total _ Hne) as [p Hp]; rewrite Hp; simpl.
      eexists; split; [reflexivity | apply Hall; now apply iloc_0_In].
    + destruct (empty (puntos_posteriores q curva)) eqn:Ep.
      * destruct (iloc_m1_total _ Hne) as [p Hp]; rewrite Hp; simpl.
        eexists; split; [reflexivity | apply Hall; now apply iloc_m1_In].
      * apply empty_false in Ea, Ep.
        destruct (iloc_m1_total _ Ea) as [p1 E1], (iloc_0_total _ Ep) as [p2 E2].
        rewrite E1, E2; cbn [bind].
        eexists; split; [reflexivity|].
        pose proof (puntos_seleccionados curva q p1 p2 E1 E2) as Hq.
        apply iloc_m1_In, en_anteriores in E1 as [In1 _].
        apply iloc_0_In, en_posteriores in E2 as [In2 _].
        destruct (Hall p1 In1) as [L1 U1], (Hall p2 In2) as [L2 U2].
        rewrite log_lineal_peso by lia.
        destruct (peso_cotas (Date p1) (Date p2) q Hq) as [Hw0 Hw1].
        set (w := IZR (q - Date p1) / IZR (Date p2 - Date p1)) in *.
        assert (0 < hi) by lra.
        pose proof (ln_monotona lo (Discount p1) Hlo L1).
        pose proof (ln_monotona lo (Discount p2) Hlo L2).
        pose proof (ln_monotona (Discount p1) hi ltac:(lra) U1).
        pose proof (ln_monotona (Discount p2) hi ltac:(lra) U2).
        split.
        -- rewrite <- (exp_ln lo) at 1 by assumption.
           apply exp_monotona; nra.
        -- rewrite <- (exp_ln hi) at 1 by assumption.
           apply exp_monotona; nra.
  - apply empty_false in Ec.
    destruct (iloc_0_total _ Ec) as [p Hp]; rewrite Hp; simpl.
    eexists; split; [reflexivity|].
    apply Hall. apply iloc_0_In, en_coincidencia in Hp; tauto.
Qed.

(** On the closed interval between two consecutive rows with positive
    factors, pivots included, the result is the geometric interpolant. *)
Lemma interpolar_en_tramo (l1 l2 : @DataFrame R) (p1 p2 : @fila R) (q v : date) :
  ascendente (l1 ++ p1 :: p2 :: l2) ->
  0 < Discount p1 -> 0 < Discount p2 ->
  (Date p1 <= q <= Date p2)%Z ->
  interpolar_factor_descuento q (l1 ++ p1 :: p2 :: l2) v
  = Ok (exp (ln (Discount p1)
             + (ln (Discount p2) - ln (Discount p1))
               * (IZR (q - Date p1) / IZR (Date p2 - Date p1)))).
Proof.
  intros Hs Hf1 Hf2 Hq.
  destruct (orden_entre_pivotes l1 l2 p1 p2 Hs) as (B1 & B2 & B12).
  assert (Hn : 0 < IZR (Date p2 - Date p1)) by (apply IZR_lt; lia).
  destruct (Z.eq_dec q (Date p1)) as [->|N1];
    [|destruct (Z.eq_dec q (Date p2)) as [->|N2]].
  - unfold interpolar_factor_descuento; cbv zeta.
    rewrite (coincidencia_tras_prefijo l1 (p2 :: l2) p1)
      by (intros p' Hp'; specialize (B1 p' Hp'); lia).
    cbn [empty negb iloc_0 bind]. f_equal.
    rewrite Z.sub_diag. unfold Rdiv; rewrite Rmult_0_l, Rmult_0_r, Rplus_0_r.
    now rewrite exp_ln.
  - unfold interpolar_factor_descuento; cbv zeta.
    change (l1 ++ p1 :: p2 :: l2) with (l1 ++ [p1] ++ p2 :: l2).
    rewrite app_assoc.
    rewrite (coincidencia_tras_prefijo (l1 ++ [p1]) l2 p2).
    + cbn [empty negb iloc_0 bind]. f_equal.
      unfold Rdiv; rewrite Rinv_r by lra.
      rewrite Rmult_1_r. replace (ln (Discount p1) + (ln (Discount p2) - ln (Discount p1)))
        with (ln (Discount p2)) by ring.
      now rewrite exp_ln.
    + intros p' Hp'; apply in_app_or in Hp' as [Hp'|[<-|[]]];
        [specialize (B1 p' Hp')|]; lia.
  - rewrite (interpolar_entre_pivotes l1 l2 p1 p2 q v Hs) by lia.
    now rewrite log_lineal_peso by lia.
Qed.

(** X5. Between two consecutive rows of an ascending curve with positive
    factors the interpolation is geometric in the date, pivots included:
    each further day multiplies the factor by the same number,
    [(df2 / df1) ^ (1 / (t2 - t1).days)].  Forward rates are flat between
    pivots, and the interpolated values join the stored ones without a
    jump. *)
Theorem razon_diaria_constante
    (l1 l2 : @DataFrame R) (p1 p2 : @fila R) (q v : date) :
  ascendente (l1 ++ p1 :: p2 :: l2) ->
  0 < Discount p1 -> 0 < Discount p2 ->
  (Date p1 <= q < Date p2)%Z ->
  exists df_hoy df_manana,
    interpolar_factor_descuento q (l1 ++ p1 :: p2 :: l2) v = Ok df_hoy /\
    interpolar_factor_descuento (q + 1)%Z (l1 ++ p1 :: p2 :: l2) v
    = Ok df_manana /\
    df_manana
    = df_hoy * Rpower (Discount p2 / Discount p1)
                      (1 / IZR (Date p2 - Date p1)).
Proof.
  intros Hs Hf1 Hf2 Hq.
  rewrite (interpolar_en_tramo l1 l2 p1 p2 q v Hs Hf1 Hf2) by lia.
  rewrite (interpolar_en_tramo l1 l2 p1 p2 (q + 1)%Z v Hs Hf1 Hf2) by lia.
  do 2 eexists; split; [reflexivity|]; split; [reflexivity|].
  assert (Hn : 0 < IZR (Date p2 - Date p1)) by (apply IZR_lt; lia).
  assert (Hln : ln (Discount p2 / Discount p1)
                = ln (Discount p2) - ln (Discount p1)).
  { unfold Rdiv. rewrite ln_mult by (trivial; now apply Rinv_0_lt_compat).
    rewrite ln_Rinv by assumption. ring. }
  unfold Rpower; rewrite Hln.
  rewrite <- exp_plus; f_equal.
  replace (q + 1 - Date p1)%Z with ((q - Date p1) + 1)%Z by lia.
  rewrite plus_IZR. field; lra.
Qed.

(** ** Exceptions of the valuation loops *)

Section ExcepcionesDelBucle.

Context {F : Type} `{Flotante F}.

(** X6. Method CURVA on a frame without rows: the call returns [0.0] when
    every flow is dated before the valuation date (none reaches the
    interpolator), and raises the [IndexError] of the interpolator as
    soon as one flow is dated on or after it. *)
Theorem curva_sin_filas (s : F) (y : option F) (f : Z) (v : date)
    (l : list (date * F)) :
  (Forall (fun '(d, _) => (d < v)%Z) l ->
   calcular_valor_presente (flujos_fechas l) (Some v) (Miembro CURVA)
                           (Some []) s y f true = Ok (of_int 0)) /\
  (Exists (fun '(d, _) => (v <= d)%Z) l ->
   calcular_valor_presente (flujos_fechas l) (Some v) (Miembro CURVA)
                           (Some []) s y f true = Raise IndexError).
Proof.
  cbn [calcular_valor_presente negb]; generalize (of_int 0) as vp.
  induction l as [|[d a] l IH]; intros vp.
  - split; [reflexivity | intros Hex; inversion Hex].
  - cbn [flujos_fechas map for_each cuerpo_curva].
    destruct (Z.ltb_spec d v) as [Hlt|Hge]; cbn [bind].
    + split.
      * intros Hall; inversion Hall; subst. now apply IH.
      * intros Hex; inversion Hex as [? ? Hd|? ? Hl]; subst; [lia|].
        now apply IH.
    + split; [|reflexivity].
      intros Hall; inversion Hall; subst; lia.
Qed.

End ExcepcionesDelBucle.

Lemma bucle_fechas_sin_frecuencia (y : R) (v : date) (l : list (date * R)) (vp : R) :
  (Forall (fun '(d, _) => (d < v)%Z) l ->
   for_each (cuerpo_yield_fechas y 0%Z v) (flujos_fechas l) vp = Ok vp) /\
  (Exists (fun '(d, _) => (v <= d)%Z) l ->
   for_each (cuerpo_yield_fechas y 0%Z v) (flujos_fechas l) vp
   = Raise ZeroDivisionError).
Proof.
  revert vp; induction l as [|[d a] l IH]; intros vp.
  - split; [reflexivity | intros Hex; inversion Hex].
  - cbn [flujos_fechas map for_each cuerpo_yield_fechas].
    destruct (Z.ltb_spec d v) as [Hlt|Hge]; cbn [bind].
    + split.
      * intros Hall; inversion Hall; subst. now apply IH.
      * intros Hex; inversion Hex as [? ? Hd|? ? Hl]; subst; [lia|].
        now apply IH.
    + rewrite descontar_yield_sin_frecuencia.
      split; [|reflexivity].
      intros Hall; inversion Hall; subst; lia.
Qed.

Lemma bucle_tiempos_sin_frecuencia (y : R) (l : list (R * R)) (vp : R) :
  (Forall (fun '(T, _) => T <= 0) l ->
   for_each (cuerpo_yield_tiempos y 0%Z) (flujos_tiempos l) vp = Ok vp) /\
  (Exists (fun '(T, _) => 0 < T) l ->
   for_each (cuerpo_yield_tiempos y 0%Z) (flujos_tiempos l) vp
   = Raise ZeroDivisionError).
Proof.
  revert vp; induction l as [|[T a] l IH]; intros vp.
  - split; [reflexivity | intros Hex; inversion Hex].
  - cbn [flujos_tiempos map for_each cuerpo_yield_tiempos fle of_int Flotante_R].
    unfold R_le; destruct (Rle_dec T 0) as [Hle|Hgt]; cbn [bind].
    + split.
      * intros Hall; inversion Hall; subst. now apply IH.
      * intros Hex; inversion Hex as [? ? Hd|? ? Hl]; subst; [lra|].
        now apply IH.
    + rewrite descontar_yield_sin_frecuencia.
      split; [|reflexivity].
      intros Hall; inversion Hall; subst; lra.
Qed.

(** X7. Method YIELD with [frecuencia = 0] and [yield_anual] a Python
    float, as the signature annotates it: the division [yield_anual /
    frecuencia] raises [ZeroDivisionError] at the first flow that is not
    skipped; a schedule whose flows are all skipped never divides and
    returns [0.0].  Both shapes. *)
Theorem yield_con_frecuencia_cero (y : R) (curva : option (@DataFrame R)) (s : R) :
  (forall (l : list (date * R)) (v : date),
      (Forall (fun '(d, _) => (d < v)%Z) l ->
       calcular_valor_presente (flujos_fechas l) (Some v) (Miembro YIELD)
                               curva s (Some y) 0%Z true = Ok 0) /\
      (Exists (fun '(d, _) => (v <= d)%Z) l ->
       calcular_valor_presente (flujos_fechas l) (Some v) (Miembro YIELD)
                               curva s (Some y) 0%Z true
       = Raise ZeroDivisionError)) /\
  (forall (l : list (R * R)) (fv : option date),
      (Forall (fun '(T, _) => T <= 0) l ->
       calcular_valor_presente (flujos_tiempos l) fv (Miembro YIELD)
                               curva s (Some y) 0%Z false = Ok 0) /\
      (Exists (fun '(T, _) => 0 < T) l ->
       calcular_valor_presente (flujos_tiempos l) fv (Miembro YIELD)
                               curva s (Some y) 0%Z false
       = Raise ZeroDivisionError)).
Proof.
  split.
  - intros l v; cbn [calcular_valor_presente].
    apply (bucle_fechas_sin_frecuencia y v l 0).
  - intros l fv; cbn [calcular_valor_presente].
    apply (bucle_tiempos_sin_frecuencia y l 0).
Qed.

(** ** Flows of the wrong shape *)

Lemma bucle_curva_total {F : Type} `{Flotante F}
    (curva : @DataFrame F) (s : F) (v : date) (l : list (date * F)) (vp : F) :
  curva <> [] ->
  exists r, for_each (cuerpo_curva curva s v) (flujos_fechas l) vp = Ok r.
Proof.
  intros Hne.
  rewrite (bucle_curva_suma curva s v
             (fun d => match interpolar_factor_descuento d curva v with
                       | Ok df => df
                       | Raise _ => of_int 0
                       end)); [eauto|].
  intros d; destruct (interpolar_total d curva v Hne) as [df ->]; reflexivity.
Qed.

Lemma bucle_yield_fechas_total (y : R) (f : Z) (v : date)
    (l : list (date * R)) (vp : R) :
  f <> 0%Z -> 0 < 1 + y / IZR f ->
  exists r, for_each (cuerpo_yield_fechas y f v) (flujos_fechas l) vp = Ok r.
Proof.
  intros Hf Hb; rewrite bucle_yield_fechas_suma.
  rewrite (secuencia_Ok
             (fun '(d, a) => a / Rpower (1 + y / IZR f) (IZR (d - v) / 365 * IZR f)))
    by (intros [d a]; now rewrite termino_yield_R).
  cbn [bind]; eauto.
Qed.

Lemma bucle_yield_tiempos_total (y : R) (f : Z) (l : list (R * R)) (vp : R) :
  f <> 0%Z -> 0 < 1 + y / IZR f ->
  exists r, for_each (cuerpo_yield_tiempos y f) (flujos_tiempos l) vp = Ok r.
Proof.
  intros Hf Hb; rewrite bucle_yield_tiempos_suma.
  rewrite (secuencia_Ok
             (fun '(T, a) => a / Rpower (1 + y / IZR f) (T * IZR f)))
    by (intros [T a]; now rewrite termino_yield_R).
  cbn [bind]; eauto.
Qed.

(** X9. The flag [flujos_como_fechas] is trusted, not checked: when the
    flows before it are well shaped and discount without error, a flow
    that carries a time where a date is expected (or a date where a time
    is expected) makes the comparison with the valuation date (or with
    [0]) raise [TypeError], and the value accumulated so far is lost. *)
Theorem flujo_de_otra_forma_TypeError :
  (forall (curva : @DataFrame R) s y f v (l1 : list (date * R)) l2 t a,
      curva <> [] ->
      calcular_valor_presente (flujos_fechas l1 ++ (Tiempo t, a) :: l2)
                              (Some v) (Miembro CURVA) (Some curva) s y f true
      = Raise TypeError) /\
  (forall (curva : option (@DataFrame R)) s y f v (l1 : list (date * R)) l2 t a,
      f <> 0%Z -> 0 < 1 + y / IZR f ->
      calcular_valor_presente (flujos_fechas l1 ++ (Tiempo t, a) :: l2)
                              (Some v) (Miembro YIELD) curva s (Some y) f true
      = Raise TypeError) /\
  (forall (curva : option (@DataFrame R)) s y f fv (l1 : list (R * R)) l2 d a,
      f <> 0%Z -> 0 < 1 + y / IZR f ->
      calcular_valor_presente (flujos_tiempos l1 ++ (Fecha d, a) :: l2)
                              fv (Miembro YIELD) curva s (Some y) f false
      = Raise TypeError).
Proof.
  repeat apply conj.
  - intros curva s y f v l1 l2 t a Hne.
    cbn [calcular_valor_presente negb]; rewrite for_each_app.
    destruct (bucle_curva_total curva s v l1 (of_int 0) Hne) as [r ->].
    reflexivity.
  - intros curva s y f v l1 l2 t a Hf Hb.
    cbn [calcular_valor_presente]; rewrite for_each_app.
    destruct (bucle_yield_fechas_total y f v l1 (of_int 0) Hf Hb) as [r ->].
    reflexivity.
  - intros curva s y f fv l1 l2 d a Hf Hb.
    cbn [calcular_valor_presente]; rewrite for_each_app.
    destruct (bucle_yield_tiempos_total y f l1 (of_int 0) Hf Hb) as [r ->].
    reflexivity.
Qed.

(** ** The present value as a sum, in exact arithmetic *)

(** A loop body that adds to the accumulator a contribution which does
    not depend on it. *)
Section BucleAditivo.

Variable A : Type.
Variable cuerpo : A -> R -> res R.
Hypothesis cuerpo_aditivo :
  forall x s, cuerpo x s = bind (cuerpo x 0) (fun c => Ok (s + c)).

Lemma for_each_desde (l : list A) (s : R) :
  for_each cuerpo l s = bind (for_each cuerpo l 0) (fun r => Ok (s + r)).
Proof.
  revert s; induction l as [|x l IH]; intros s; simpl.
  - f_equal; ring.
  - rewrite (cuerpo_aditivo x s).
    destruct (cuerpo x 0) as [c|e]; simpl; [|reflexivity].
    rewrite (IH (s + c)), (IH c).
    destruct (for_each cuerpo l 0) as [r|e]; simpl; [f_equal; ring | reflexivity].
Qed.

Lemma for_each_concatena (l1 l2 : list A) (a b : R) :
  for_each cuerpo l1 0 = Ok a -> for_each cuerpo l2 0 = Ok b ->
  for_each cuerpo (l1 ++ l2) 0 = Ok (a + b).
Proof.
  intros H1 H2; rewrite for_each_app, H1; simpl.
  now rewrite for_each_desde, H2.
Qed.

Lemma for_each_permuta (l l' : list A) :
  Permutation l l' ->
  forall s r, for_each cuerpo l s = Ok r -> for_each cuerpo l' s = Ok r.
Proof.
  induction 1 as [|x l l' _ IH|x y l|l l' l'' _ IH1 _ IH2]; intros s r; simpl.
  - trivial.
  - destruct (cuerpo x s) as [s'|e]; simpl; [apply IH | discriminate].
  - rewrite (cuerpo_aditivo y s), (cuerpo_aditivo x s).
    destruct (cuerpo y 0) as [cy|e] eqn:Ey; simpl; [|discriminate].
    rewrite (cuerpo_aditivo x (s + cy)).
    destruct (cuerpo x 0) as [cx|e]; simpl; [|discriminate].
    rewrite (cuerpo_aditivo y (s + cx)), Ey; simpl.
    replace (s + cx + cy) with (s + cy + cx) by ring. trivial.
  - intros Hr; now apply IH2, IH1.
Qed.

End BucleAditivo.

Lemma cuerpo_curva_aditivo (curva : @DataFrame R) (s : R) (v : date)
    (fl : @flujo R) (vp : R) :
  cuerpo_curva curva s v fl vp
  = bind (cuerpo_curva curva s v fl 0) (fun c => Ok (vp + c)).
Proof.
  destruct fl as [[d|t] a]; cbn [cuerpo_curva]; [|reflexivity].
  destruct (d <? v)%Z; simpl; [f_equal; ring|].
  destruct (interpolar_factor_descuento d curva v) as [df|e]; simpl;
    [f_equal; ring | reflexivity].
Qed.

Lemma descontar_yield_aditivo (y : R) (f : Z) (T a vp : R) :
  descontar_yield y f T a vp
  = bind (descontar_yield y f T a 0) (fun c => Ok (vp + c)).
Proof.
  rewrite 2 descontar_yield_termino.
  destruct (termino_yield y f T a) as [c|e]; simpl; [f_equal; ring | reflexivity].
Qed.

Lemma cuerpo_yield_fechas_aditivo (y : R) (f : Z) (v : date)
    (fl : @flujo R) (vp : R) :
  cuerpo_yield_fechas y f v fl vp
  = bind (cuerpo_yield_fechas y f v fl 0) (fun c => Ok (vp + c)).
Proof.
  destruct fl as [[d|t] a]; cbn [cuerpo_yield_fechas]; [|reflexivity].
  destruct (d <? v)%Z; [simpl; f_equal; ring|].
  apply descontar_yield_aditivo.
Qed.

Lemma cuerpo_yield_tiempos_aditivo (y : R) (f : Z) (fl : @flujo R) (vp : R) :
  cuerpo_yield_tiempos y f fl vp
  = bind (cuerpo_yield_tiempos y f fl 0) (fun c => Ok (vp + c)).
Proof.
  destruct fl as [[d|t] a]; cbn [cuerpo_yield_tiempos]; [reflexivity|].
  destruct (fle t (of_int 0)); [simpl; f_equal; ring|].
  apply descontar_yield_aditivo.
Qed.

(** X10. The present value of two schedules put one after the other is
    the sum of their present values, for every method and shape, whenever
    both are valued without error. *)
Theorem valor_presente_de_la_union
    (l1 l2 : list (@flujo R)) (fv : option date) (metodo : valor_metodo)
    (curva : option (@DataFrame R)) (s : R) (y : option R) (f : Z)
    (como_fechas : bool) (a b : R) :
  calcular_valor_presente l1 fv metodo curva s y f como_fechas = Ok a ->
  calcular_valor_presente l2 fv metodo curva s y f como_fechas = Ok b ->
  calcular_valor_presente (l1 ++ l2) fv metodo curva s y f como_fechas
  = Ok (a + b).
Proof.
  destruct metodo as [[|]|texto]; cbn [calcular_valor_presente];
    [| |discriminate].
  - destruct curva as [c|]; [|discriminate].
    destruct (negb como_fechas); [discriminate|].
    destruct fv as [v|]; [|discriminate].
    apply for_each_concatena, cuerpo_curva_aditivo.
  - destruct y as [y0|]; [|discriminate].
    destruct como_fechas.
    + destruct fv as [v|]; [|discriminate].
      apply for_each_concatena, cuerpo_yield_fechas_aditivo.
    + apply for_each_concatena, cuerpo_yield_tiempos_aditivo.
Qed.

(** X11. The order of the flows does not matter: a schedule that is
    valued without error and any reordering of it have the same present
    value, for every method and shape. *)
Theorem valor_presente_sin_orden
    (l l' : list (@flujo R)) (fv : option date) (metodo : valor_metodo)
    (curva : option (@DataFrame R)) (s : R) (y : option R) (f : Z)
    (como_fechas : bool) (a : R) :
  Permutation l l' ->
  calcular_valor_presente l fv metodo curva s y f como_fechas = Ok a ->
  calcular_valor_presente l' fv metodo curva s y f como_fechas = Ok a.
Proof.
  intros Hp.
  destruct metodo as [[|]|texto]; cbn [calcular_valor_presente];
    [| |discriminate].
  - destruct curva as [c|]; [|discriminate].
    destruct (negb como_fechas); [discriminate|].
    destruct fv as [v|]; [|discriminate].
    apply for_each_permuta; [apply cuerpo_curva_aditivo | exact Hp].
  - destruct y as [y0|]; [|discriminate].
    destruct como_fechas.
    + destruct fv as [v|]; [|discriminate].
      apply for_each_permuta; [apply cuerpo_yield_fechas_aditivo | exact Hp].
    + apply for_each_permuta; [apply cuerpo_yield_tiempos_aditivo | exact Hp].
Qed.

(** ** Scaling the amounts *)

(** A loop whose body commutes with multiplying amount and accumulator by
    the same number. *)
Section BucleHomogeneo.

Variable A : Type.
Variable cuerpo : A -> R -> res R.
Variable k : R.
Variable escala : A -> A.
Hypothesis cuerpo_escala :
  forall x s, cuerpo (escala x) (k * s) = bind (cuerpo x s) (fun r => Ok (k * r)).

Lemma for_each_escala (l : list A) (s : R) :
  for_each cuerpo (map escala l) (k * s)
  = bind (for_each cuerpo l s) (fun r => Ok (k * r)).
Proof.
  revert s; induction l as [|x l IH]; intros s; simpl; [reflexivity|].
  rewrite cuerpo_escala.
  destruct (cuerpo x s) as [s'|e]; simpl; [apply IH | reflexivity].
Qed.

End BucleHomogeneo.

Lemma cuerpo_curva_escala (curva : @DataFrame R) (s : R) (v : date) (k : R)
    (fl : @flujo R) (vp : R) :
  cuerpo_curva curva s v (por_factor k fl) (k * vp)
  = bind (cuerpo_curva curva s v fl vp) (fun r => Ok (k * r)).
Proof.
  destruct fl as [[d|t] a]; cbn [por_factor cuerpo_curva]; [|reflexivity].
  destruct (d <? v)%Z; [reflexivity|].
  destruct (interpolar_factor_descuento d curva v) as [df|e]; simpl;
    [f_equal; ring | reflexivity].
Qed.

Lemma descontar_yield_escala (y : R) (f : Z) (T a vp k : R) :
  descontar_yield y f T (k * a) (k * vp)
  = bind (descontar_yield y f T a vp) (fun r => Ok (k * r)).
Proof.
  unfold descontar_yield, py_truediv.
  destruct (es_cero (of_int f)); simpl; [reflexivity|].
  destruct (R_pow _ _) as [DF|e]; simpl; [|reflexivity].
  destruct (R_es_cero DF); simpl; [reflexivity|].
  f_equal; unfold Rdiv; ring.
Qed.

Lemma cuerpo_yield_fechas_escala (y : R) (f : Z) (v : date) (k : R)
    (fl : @flujo R) (vp : R) :
  cuerpo_yield_fechas y f v (por_factor k fl) (k * vp)
  = bind (cuerpo_yield_fechas y f v fl vp) (fun r => Ok (k * r)).
Proof.
  destruct fl as [[d|t] a]; cbn [por_factor cuerpo_yield_fechas]; [|reflexivity].
  destruct (d <? v)%Z; [reflexivity|].
  apply descontar_yield_escala.
Qed.

Lemma cuerpo_yield_tiempos_escala (y : R) (f : Z) (k : R)
    (fl : @flujo R) (vp : R) :
  cuerpo_yield_tiempos y f (por_factor k fl) (k * vp)
  = bind (cuerpo_yield_tiempos y f fl vp) (fun r => Ok (k * r)).
Proof.
  destruct fl as [[d|t] a]; cbn [por_factor cuerpo_yield_tiempos]; [reflexivity|].
  destruct (fle t (of_int 0)); [reflexivity|].
  apply descontar_yield_escala.
Qed.

(** X12. The present value is homogeneous in the amounts: multiplying
    every amount of a schedule by [k] multiplies the present value by
    [k], and a call that raises keeps raising the same exception.  Every
    method and shape. *)
Theorem valor_presente_homogeneo
    (l : list (@flujo R)) (fv : option date) (metodo : valor_metodo)
    (curva : option (@DataFrame R)) (s : R) (y : option R) (f : Z)
    (como_fechas : bool) (k : R) :
  calcular_valor_presente (map (fun '(i, a) => (i, k * a)) l)
                          fv metodo curva s y f como_fechas
  = bind (calcular_valor_presente l fv metodo curva s y f como_fechas)
         (fun vp => Ok (k * vp)).
Proof.
  change (map (fun '(i, a) => (i, k * a)) l) with (map (por_factor k) l).
  destruct metodo as [[|]|texto]; cbn [calcular_valor_presente];
    [| |reflexivity].
  - destruct curva as [c|]; [|reflexivity].
    destruct (negb como_fechas); [reflexivity|].
    destruct fv as [v|]; [|reflexivity].
    cbn [of_int Flotante_R].
    rewrite <- (Rmult_0_r k) at 1.
    apply for_each_escala; intros x vp; apply cuerpo_curva_escala.
  - destruct y as [y0|]; [|reflexivity].
    destruct como_fechas.
    + destruct fv as [v|]; [|reflexivity].
      cbn [of_int Flotante_R].
      rewrite <- (Rmult_0_r k) at 1.
      apply for_each_escala; intros x vp; apply cuerpo_yield_fechas_escala.
    + cbn [of_int Flotante_R].
      rewrite <- (Rmult_0_r k) at 1.
      apply for_each_escala; intros x vp; apply cuerpo_yield_tiempos_escala.
Qed.

(** ** Closed forms of the YIELD loops and what follows from them *)

Lemma bucle_yield_fechas_valor (y : R) (f : Z) (v : date)
    (l : list (date * R)) (vp : R) :
  f <> 0%Z -> 0 < 1 + y / IZR f ->
  for_each (cuerpo_yield_fechas y f v) (flujos_fechas l) vp
  = Ok (fold_left Rplus
          (map (fun '(d, a) =>
                  a / Rpower (1 + y / IZR f) (IZR (d - v) / 365 * IZR f))
               (no_pasados v l))
          vp).
Proof.
  intros Hf Hb; rewrite bucle_yield_fechas_suma.
  rewrite (secuencia_Ok
             (fun '(d, a) => a / Rpower (1 + y / IZR f) (IZR (d - v) / 365 * IZR f)))
    by (intros [d a]; now rewrite termino_yield_R).
  reflexivity.
Qed.

Lemma bucle_yield_tiempos_valor (y : R) (f : Z) (l : list (R * R)) (vp : R) :
  f <> 0%Z -> 0 < 1 + y / IZR f ->
  for_each (cuerpo_yield_tiempos y f) (flujos_tiempos l) vp
  = Ok (fold_left Rplus
          (map (fun '(T, a) => a / Rpower (1 + y / IZR f) (T * IZR f))
               (no_vencidos l))
          vp).
Proof.
  intros Hf Hb; rewrite bucle_yield_tiempos_suma.
  rewrite (secuencia_Ok
             (fun '(T, a) => a / Rpower (1 + y / IZR f) (T * IZR f)))
    by (intros [T a]; now rewrite termino_yield_R).
  reflexivity.
Qed.

Lemma en_no_pasados (v : date) (l : list (date * R)) (d : date) (a : R) :
  In (d, a) (no_pasados v l) <-> In (d, a) l /\ (v <= d)%Z.
Proof. unfold no_pasados; rewrite filter_In, Z.leb_le; tauto. Qed.

Lemma en_no_vencidos (l : list (R * R)) (T a : R) :
  In (T, a) (no_vencidos l) <-> In (T, a) l /\ 0 < T.
Proof.
  unfold no_vencidos; rewrite filter_In; cbn [fle of_int Flotante_R].
  unfold R_le; destruct (Rle_dec T 0); simpl; intuition (try discriminate; lra).
Qed.

Lemma Rpower_de_uno (e : R) : Rpower 1 e = 1.
Proof. unfold Rpower; now rewrite ln_1, Rmult_0_r, exp_0. Qed.

Lemma fold_left_Rplus_ext {X : Type} (g h : X -> R) (l : list X) (s : R) :
  (forall x, In x l -> g x = h x) ->
  fold_left Rplus (map g l) s = fold_left Rplus (map h l) s.
Proof.
  intros Hgh; f_equal; apply map_ext_in; exact Hgh.
Qed.

Lemma fold_left_Rplus_monotona {X : Type} (g h : X -> R) (l : list X) (s t : R) :
  (forall x, In x l -> g x <= h x) -> s <= t ->
  fold_left Rplus (map g l) s <= fold_left Rplus (map h l) t.
Proof.
  revert s t; induction l as [|x l IH]; intros s t Hgh Hst; simpl; [exact Hst|].
  apply IH; [intros x' Hx'; apply Hgh; now right|].
  specialize (Hgh x (or_introl eq_refl)); lra.
Qed.

(** X13. At zero yield nothing is discounted: for a non-zero frequency
    the present value is the plain sum of the amounts of the flows that
    are not skipped, in both shapes. *)
Theorem yield_cero_suma_los_montos (f : Z) (curva : option (@DataFrame R)) (s : R) :
  f <> 0%Z ->
  (forall (l : list (date * R)) (v : date),
      calcular_valor_presente (flujos_fechas l) (Some v) (Miembro YIELD)
                              curva s (Some 0) f true
      = Ok (suma (map snd (filter (fun '(d, _) => (v <=? d)%Z) l)))) /\
  (forall (l : list (R * R)) (fv : option date),
      calcular_valor_presente (flujos_tiempos l) fv (Miembro YIELD)
                              curva s (Some 0) f false
      = Ok (suma (map snd
                      (filter (fun '(T, _) => if Rlt_dec 0 T then true else false)
                              l)))).
Proof.
  intros Hf.
  assert (Hb : 0 < 1 + 0 / IZR f)
    by (unfold Rdiv; rewrite Rmult_0_l; lra).
  assert (Hu : 1 + 0 / IZR f = 1)
    by (unfold Rdiv; rewrite Rmult_0_l; ring).
  split.
  - intros l v; cbn [calcular_valor_presente].
    rewrite bucle_yield_fechas_valor by assumption.
    unfold suma; f_equal; fold (no_pasados v l).
    apply fold_left_Rplus_ext; intros [d a] _.
    rewrite Hu, Rpower_de_uno; simpl; field.
  - intros l fv; cbn [calcular_valor_presente].
    rewrite bucle_yield_tiempos_valor by assumption.
    unfold suma; f_equal.
    replace (filter (fun '(T, _) => if Rlt_dec 0 T then true else false) l)
      with (no_vencidos l).
    + apply fold_left_Rplus_ext; intros [T a] _.
      rewrite Hu, Rpower_de_uno; simpl; field.
    + apply filter_ext; intros [T a]; cbn [fle of_int Flotante_R].
      unfold R_le; destruct (Rle_dec T 0), (Rlt_dec 0 T); simpl; trivial; lra.
Qed.

(** X14. The two shapes of the YIELD method agree away from the valuation
    date: when no flow is dated exactly on it, valuing the dated schedule
    is the same as valuing the schedule of the times
    [(date - fecha_valoracion).days / 365.0], results and exceptions
    alike, for every yield and frequency. *)
Theorem fechas_y_tiempos_coinciden
    (l : list (date * R)) (v : date) (fv : option date)
    (curva : option (@DataFrame R)) (s y : R) (f : Z) :
  (forall d a, In (d, a) l -> d <> v) ->
  calcular_valor_presente (flujos_fechas l) (Some v) (Miembro YIELD)
                          curva s (Some y) f true
  = calcular_valor_presente
      (flujos_tiempos (map (fun '(d, a) => (IZR (d - v) / 365, a)) l))
      fv (Miembro YIELD) curva s (Some y) f false.
Proof.
  intros Hv; cbn [calcular_valor_presente].
  generalize (@of_int R Flotante_R 0) as vp.
  induction l as [|[d a] l IH]; intros vp; [reflexivity|].
  cbn [flujos_fechas flujos_tiempos map for_each
       cuerpo_yield_fechas cuerpo_yield_tiempos].
  assert (Hd : d <> v) by (apply (Hv d a); now left).
  assert (IH' : forall vp',
             for_each (cuerpo_yield_fechas y f v) (flujos_fechas l) vp'
             = for_each (cuerpo_yield_tiempos y f)
                 (flujos_tiempos (map (fun '(d, a) => (IZR (d - v) / 365, a)) l))
                 vp')
    by (apply IH; intros d' a' Hin; apply (Hv d' a'); now right).
  destruct (Z.ltb_spec d v) as [Hlt|Hge].
  - rewrite R_le_true.
    + cbn [bind]; apply IH'.
    + cbn [of_int Flotante_R].
      assert (IZR (d - v) < 0) by (apply IZR_lt; lia). lra.
  - rewrite R_le_false.
    + rewrite entre_365_R.
      destruct (descontar_yield y f (IZR (d - v) / 365) a vp) as [s'|e];
        cbn [bind]; [apply IH' | reflexivity].
    + cbn [of_int Flotante_R].
      assert (0 < IZR (d - v)) by (apply IZR_lt; lia). lra.
Qed.

(** X15. A higher yield never gives a higher present value: for a
    positive frequency, amounts that are not negative and yields
    [y1 <= y2] with a positive base [1 + y1/f], both calls return and
    the value at [y2] is at most the value at [y1].  Both shapes. *)
Theorem valor_presente_decrece_con_el_yield
    (y1 y2 : R) (f : Z) (curva : option (@DataFrame R)) (s : R) :
  (0 < f)%Z -> 0 < 1 + y1 / IZR f -> y1 <= y2 ->
  (forall (l : list (date * R)) (v : date),
      Forall (fun '(_, a) => 0 <= a) l ->
      exists vp1 vp2,
        calcular_valor_presente (flujos_fechas l) (Some v) (Miembro YIELD)
                                curva s (Some y1) f true = Ok vp1 /\
        calcular_valor_presente (flujos_fechas l) (Some v) (Miembro YIELD)
                                curva s (Some y2) f true = Ok vp2 /\
        vp2 <= vp1) /\
  (forall (l : list (R * R)) (fv : option date),
      Forall (fun '(_, a) => 0 <= a) l ->
      exists vp1 vp2,
        calcular_valor_presente (flujos_tiempos l) fv (Miembro YIELD)
                                curva s (Some y1) f false = Ok vp1 /\
        calcular_valor_presente (flujos_tiempos l) fv (Miembro YIELD)
                                curva s (Some y2) f false = Ok vp2 /\
        vp2 <= vp1).
Proof.
  intros Hf Hb1 Hy.
  assert (Hf0 : f <> 0%Z) by lia.
  assert (HF : 0 < IZR f) by (now apply IZR_lt).
  assert (Hbb : 1 + y1 / IZR f <= 1 + y2 / IZR f).
  { apply Rplus_le_compat_l. unfold Rdiv.
    apply Rmult_le_compat_r; [left; now apply Rinv_0_lt_compat | exact Hy]. }
  assert (Hb2 : 0 < 1 + y2 / IZR f) by lra.
  assert (Hterm : forall a e, 0 <= a -> 0 <= e ->
             a / Rpower (1 + y2 / IZR f) e <= a / Rpower (1 + y1 / IZR f) e).
  { intros a e Ha He. unfold Rdiv.
    apply Rmult_le_compat_l; [exact Ha|].
    apply Rinv_le_contravar; [unfold Rpower; apply exp_pos|].
    apply Rle_Rpower_l; [exact He | split; assumption]. }
  split.
  - intros l v Hall; rewrite Forall_forall in Hall.
    cbn [calcular_valor_presente].
    rewrite 2 bucle_yield_fechas_valor by assumption.
    do 2 eexists; split; [reflexivity|]; split; [reflexivity|].
    apply fold_left_Rplus_monotona; [|lra].
    intros [d a] Hin; apply en_no_pasados in Hin as [Hin Hd].
    apply Hterm; [exact (Hall (d, a) Hin)|].
    assert (0 <= IZR (d - v)) by (apply IZR_le; lia).
    apply Rmult_le_pos; [|lra].
    apply Rmult_le_pos; [assumption | lra].
  - intros l fv Hall; rewrite Forall_forall in Hall.
    cbn [calcular_valor_presente].
    rewrite 2 bucle_yield_tiempos_valor by assumption.
    do 2 eexists; split; [reflexivity|]; split; [reflexivity|].
    apply fold_left_Rplus_monotona; [|lra].
    intros [T a] Hin; apply en_no_vencidos in Hin as [Hin HT].
    apply Hterm; [exact (Hall (T, a) Hin)|].
    apply Rmult_le_pos; lra.
Qed.

(** ** The credit spread *)

Lemma interpolar_positivo (curva : @DataFrame R) (q v : date) (df : R) :
  positiva curva ->
  interpolar_factor_descuento q curva v = Ok df -> 0 < df.
Proof.
  unfold positiva; rewrite Forall_forall; intros Hpos.
  unfold interpolar_factor_descuento; cbv zeta.
  destruct (negb (empty (coincidencia q curva))).
  - destruct (iloc_0 (coincidencia q curva)) as [p|e] eqn:E; simpl;
      [|discriminate].
    intros [= <-]. apply Hpos. apply iloc_0_In, en_coincidencia in E; tauto.
  - destruct (empty (puntos_anteriores q curva)).
    + destruct (iloc_0 curva) as [p|e] eqn:E; simpl; [|discriminate].
      intros [= <-]. now apply Hpos, iloc_0_In.
    + destruct (empty (puntos_posteriores q curva)).
      * destruct (iloc_m1 curva) as [p|e] eqn:E; simpl; [|discriminate].
        intros [= <-]. now apply Hpos, iloc_m1_In.
      * destruct (iloc_m1 (puntos_anteriores q curva)) as [p1|e]; simpl;
          [|discriminate].
        destruct (iloc_0 (puntos_posteriores q curva)) as [p2|e]; simpl;
          [|discriminate].
        intros [= <-]. unfold log_lineal; cbv zeta. apply exp_pos.
Qed.

(** X16. A wider credit spread never gives a higher present value: on a
    curve with at least one row and positive factors, for amounts that
    are not negative and spreads [s1 <= s2], method CURVA returns for
    both and the value at [s2] is at most the value at [s1]. *)
Theorem valor_presente_decrece_con_el_spread
    (curva : @DataFrame R) (s1 s2 : R) (y : option R) (f : Z) (v : date)
    (l : list (date * R)) :
  curva <> [] -> positiva curva -> s1 <= s2 ->
  Forall (fun '(_, a) => 0 <= a) l ->
  exists vp1 vp2,
    calcular_valor_presente (flujos_fechas l) (Some v) (Miembro CURVA)
                            (Some curva) s1 y f true = Ok vp1 /\
    calcular_valor_presente (flujos_fechas l) (Some v) (Miembro CURVA)
                            (Some curva) s2 y f true = Ok vp2 /\
    vp2 <= vp1.
Proof.
  intros Hne Hpos Hs Hall; rewrite Forall_forall in Hall.
  set (DF := fun d => match interpolar_factor_descuento d curva v with
                      | Ok df => df
                      | Raise _ => 0
                      end).
  assert (HDF : forall d, interpolar_factor_descuento d curva v = Ok (DF d)).
  { intros d; unfold DF.
    destruct (interpolar_total d curva v Hne) as [df ->]; reflexivity. }
  cbn [calcular_valor_presente negb].
  rewrite 2 (bucle_curva_suma curva _ v DF l _ HDF).
  do 2 eexists; split; [reflexivity|]; split; [reflexivity|].
  apply fold_left_Rplus_monotona; [|cbn [of_int Flotante_R]; lra].
  intros [d a] Hin; apply en_no_pasados in Hin as [Hin Hd].
  unfold termino_curva; cbn [fmul fneg np_exp Flotante_R]; rewrite entre_365_R.
  pose proof (Hall (d, a) Hin) as Ha; cbn beta iota in Ha.
  pose proof (interpolar_positivo curva d v (DF d) Hpos (HDF d)) as Hdf.
  assert (HT : 0 <= IZR (d - v) / 365).
  { assert (0 <= IZR (d - v)) by (apply IZR_le; lia).
    apply Rmult_le_pos; [assumption | lra]. }
  apply Rmult_le_compat_l; [exact Ha|].
  apply Rmult_le_compat_l; [lra|].
  apply exp_monotona; nra.
Qed.

(** * Worked instances of the further properties *)

Lemma IndexError_solo_con_curva_vacia_witness :
  @interpolar_factor_descuento R _ fecha_2024_07_02 [] fecha_2024_01_01
  = Raise IndexError.
Proof.
  apply (proj2 (IndexError_solo_con_curva_vacia
                  [] fecha_2024_07_02 fecha_2024_01_01)).
  split; apply Z.leb_le; reflexivity.
Defined.

Lemma primera_coincidencia_gana_witness :
  interpolar_factor_descuento
    20%Z [Fila 10%Z 1; Fila 20%Z 0.9; Fila 20%Z 0.5] 0%Z
  = Ok 0.9.
Proof.
  apply (primera_coincidencia_gana
           [Fila 10%Z 1] [Fila 20%Z 0.5] (Fila 20%Z 0.9) 0%Z).
  intros p' [<-|[]]; discriminate.
Defined.

Lemma interpolacion_local_witness :
  interpolar_factor_descuento 30%Z curva_tres 0%Z
  = interpolar_factor_descuento 30%Z [Fila 20%Z 0.9; Fila 40%Z 0.8] 0%Z.
Proof.
  apply (interpolacion_local
           [Fila 10%Z 1] [] (Fila 20%Z 0.9) (Fila 40%Z 0.8) 30%Z 0%Z).
  - unfold ascendente; simpl; ordenada.
  - split; reflexivity.
Defined.

Lemma factor_dentro_del_rango_witness :
  exists df,
    interpolar_factor_descuento 30%Z curva_tres 0%Z = Ok df /\ 0.8 <= df <= 1.
Proof.
  apply (factor_dentro_del_rango curva_tres 30%Z 0%Z 0.8 1).
  - lra.
  - discriminate.
  - repeat constructor; simpl; lra.
Defined.

Lemma razon_diaria_constante_witness :
  exists df_hoy df_manana,
    interpolar_factor_descuento 20%Z curva_tres 0%Z = Ok df_hoy /\
    interpolar_factor_descuento (20 + 1)%Z curva_tres 0%Z = Ok df_manana /\
    df_manana = df_hoy * Rpower (0.8 / 0.9) (1 / IZR (40 - 20)).
Proof.
  apply (razon_diaria_constante
           [Fila 10%Z 1] [] (Fila 20%Z 0.9) (Fila 40%Z 0.8) 20%Z 0%Z).
  - unfold ascendente; simpl; ordenada.
  - simpl; lra.
  - simpl; lra.
  - split; [apply Z.le_refl | reflexivity].
Defined.

Lemma curva_sin_filas_witness :
  calcular_valor_presente (flujos_fechas [(5%Z, 50)]) (Some 10%Z)
                          (Miembro CURVA) (Some []) 0.01 None 2%Z true
  = Ok 0 /\
  calcular_valor_presente (flujos_fechas [(5%Z, 50); (15%Z, 100)]) (Some 10%Z)
                          (Miembro CURVA) (Some []) 0.01 None 2%Z true
  = Raise IndexError.
Proof.
  split.
  - refine (proj1 (curva_sin_filas 0.01 None 2%Z 10%Z [(5%Z, 50)]) _).
    repeat constructor.
  - apply (proj2 (curva_sin_filas 0.01 None 2%Z 10%Z [(5%Z, 50); (15%Z, 100)])).
    right; left; discriminate.
Defined.

Lemma yield_con_frecuencia_cero_witness :
  calcular_valor_presente (flujos_fechas [(5%Z, 50)]) (Some 10%Z)
                          (Miembro YIELD) None 0 (Some 0.04) 0%Z true
  = Ok 0 /\
  calcular_valor_presente (flujos_fechas [(5%Z, 50); (15%Z, 100)]) (Some 10%Z)
                          (Miembro YIELD) None 0 (Some 0.04) 0%Z true
  = Raise ZeroDivisionError /\
  calcular_valor_presente (flujos_tiempos [(-1, 50)]) None
                          (Miembro YIELD) None 0 (Some 0.04) 0%Z false
  = Ok 0 /\
  calcular_valor_presente (flujos_tiempos [(-1, 50); (1, 100)]) None
                          (Miembro YIELD) None 0 (Some 0.04) 0%Z false
  = Raise ZeroDivisionError.
Proof.
  destruct (yield_con_frecuencia_cero 0.04 None 0) as [Hfechas Htiempos].
  repeat apply conj.
  - apply (proj1 (Hfechas [(5%Z, 50)] 10%Z)). repeat constructor.
  - apply (proj2 (Hfechas [(5%Z, 50); (15%Z, 100)] 10%Z)).
    right; left; discriminate.
  - apply (proj1 (Htiempos [(-1, 50)] None)). repeat constructor; lra.
  - apply (proj2 (Htiempos [(-1, 50); (1, 100)] None)).
    right; left; lra.
Defined.

Lemma flujo_de_otra_forma_TypeError_witness :
  calcular_valor_presente
    (flujos_fechas [(15%Z, 100)] ++ (Tiempo 1, 50) :: [])
    (Some 10%Z) (Miembro CURVA) (Some curva_tres) 0.01 None 2%Z true
  = Raise TypeError /\
  calcular_valor_presente
    (flujos_fechas [(15%Z, 100)] ++ (Tiempo 1, 50) :: [])
    (Some 10%Z) (Miembro YIELD) None 0 (Some 0.04) 2%Z true
  = Raise TypeError /\
  calcular_valor_presente
    (flujos_tiempos [(1, 100)] ++ (Fecha 15%Z, 50) :: [])
    None (Miembro YIELD) None 0 (Some 0.04) 2%Z false
  = Raise TypeError.
Proof.
  destruct flujo_de_otra_forma_TypeError as (Hcurva & Hfechas & Htiempos).
  repeat apply conj.
  - apply (Hcurva curva_tres 0.01 None 2%Z 10%Z [(15%Z, 100)] [] 1 50).
    discriminate.
  - apply (Hfechas None 0 0.04 2%Z 10%Z [(15%Z, 100)] [] 1 50);
      [discriminate | lra].
  - apply (Htiempos None 0 0.04 2%Z None [(1, 100)] [] 15%Z 50);
      [discriminate | lra].
Defined.

Lemma valor_presente_de_la_union_witness :
  calcular_valor_presente
    ([(Fecha 10%Z, 100)] ++ [(Fecha 20%Z, 200)])
    (Some 10%Z) (Miembro CURVA) (Some curva_tres) 0 None 2%Z true
  = Ok ((0 + 100 * (1 * exp (- 0 * (0 / 365))))
        + (0 + 200 * (0.9 * exp (- 0 * (10 / 365))))).
Proof.
  apply (valor_presente_de_la_union
           [(Fecha 10%Z, 100)] [(Fecha 20%Z, 200)]
           (Some 10%Z) (Miembro CURVA) (Some curva_tres) 0 None 2%Z true);
    reflexivity.
Defined.

Lemma valor_presente_sin_orden_witness :
  calcular_valor_presente
    [(Fecha 20%Z, 200); (Fecha 10%Z, 100)]
    (Some 10%Z) (Miembro CURVA) (Some curva_tres) 0 None 2%Z true
  = Ok (0 + 100 * (1 * exp (- 0 * (0 / 365)))
        + 200 * (0.9 * exp (- 0 * (10 / 365)))).
Proof.
  apply (valor_presente_sin_orden
           [(Fecha 10%Z, 100); (Fecha 20%Z, 200)]
           [(Fecha 20%Z, 200); (Fecha 10%Z, 100)]
           (Some 10%Z) (Miembro CURVA) (Some curva_tres) 0 None 2%Z true).
  - apply perm_swap.
  - reflexivity.
Defined.

Lemma yield_cero_suma_los_montos_witness :
  (forall (l : list (date * R)) (v : date),
      calcular_valor_presente (flujos_fechas l) (Some v) (Miembro YIELD)
                              None 0 (Some 0) 2%Z true
      = Ok (suma (map snd (filter (fun '(d, _) => (v <=? d)%Z) l)))) /\
  (forall (l : list (R * R)) (fv : option date),
      calcular_valor_presente (flujos_tiempos l) fv (Miembro YIELD)
                              None 0 (Some 0) 2%Z false
      = Ok (suma (map snd
                      (filter (fun '(T, _) => if Rlt_dec 0 T then true else false)
                              l)))).
Proof.
  apply (yield_cero_suma_los_montos 2%Z None 0); discriminate.
Defined.

Lemma fechas_y_tiempos_coinciden_witness :
  calcular_valor_presente (flujos_fechas [(5%Z, 50); (15%Z, 100)]) (Some 10%Z)
                          (Miembro YIELD) None 0 (Some 0.04) 2%Z true
  = calcular_valor_presente
      (flujos_tiempos
         (map (fun '(d, a) => (IZR (d - 10) / 365, a)) [(5%Z, 50); (15%Z, 100)]))
      None (Miembro YIELD) None 0 (Some 0.04) 2%Z false.
Proof.
  apply (fechas_y_tiempos_coinciden
           [(5%Z, 50); (15%Z, 100)] 10%Z None None 0 0.04 2%Z).
  intros d a [E|[E|[]]]; injection E as <- _; discriminate.
Defined.

Lemma valor_presente_decrece_con_el_yield_witness :
  (exists vp1 vp2,
      calcular_valor_presente (flujos_fechas [(5%Z, 50); (15%Z, 100)])
                              (Some 10%Z) (Miembro YIELD)
                              None 0 (Some 0.03) 2%Z true = Ok vp1 /\
      calcular_valor_presente (flujos_fechas [(5%Z, 50); (15%Z, 100)])
                              (Some 10%Z) (Miembro YIELD)
                              None 0 (Some 0.04) 2%Z true = Ok vp2 /\
      vp2 <= vp1) /\
  (exists vp1 vp2,
      calcular_valor_presente (flujos_tiempos [(-1, 50); (1, 100)])
                              None (Miembro YIELD)
                              None 0 (Some 0.03) 2%Z false = Ok vp1 /\
      calcular_valor_presente (flujos_tiempos [(-1, 50); (1, 100)])
                              None (Miembro YIELD)
                              None 0 (Some 0.04) 2%Z false = Ok vp2 /\
      vp2 <= vp1).
Proof.
  destruct (valor_presente_decrece_con_el_yield 0.03 0.04 2%Z None 0)
    as [Hfechas Htiempos]; [reflexivity | lra | lra |].
  split.
  - apply (Hfechas [(5%Z, 50); (15%Z, 100)] 10%Z).
    repeat constructor; lra.
  - apply (Htiempos [(-1, 50); (1, 100)] None).
    repeat constructor; lra.
Defined.

Lemma valor_presente_decrece_con_el_spread_witness :
  exists vp1 vp2,
    calcular_valor_presente (flujos_fechas [(5%Z, 50); (30%Z, 100)])
                            (Some 10%Z) (Miembro CURVA)
                            (Some curva_tres) 0 None 2%Z true = Ok vp1 /\
    calcular_valor_presente (flujos_fechas [(5%Z, 50); (30%Z, 100)])
                            (Some 10%Z) (Miembro CURVA)
                            (Some curva_tres) 0.01 None 2%Z true = Ok vp2 /\
    vp2 <= vp1.
Proof.
  apply (valor_presente_decrece_con_el_spread
           curva_tres 0 0.01 None 2%Z 10%Z [(5%Z, 50); (30%Z, 100)]).
  - discriminate.
  - unfold positiva; simpl; ordenada.
  - lra.
  - repeat constructor; lra.
Defined.
